(** * simplecrawl: a typed client for the firecrawl-simple HTTP API

    A shallow embedding of [simplecrawl.models], [simplecrawl.sync_client]
    and [simplecrawl.async_client], followed by the properties of the
    request builders and response validators.

    Python dictionaries are finite maps from strings ([gmap string _]);
    exceptions are the [Raise] branch of an error monad; the HTTP session
    is a function from requests to response objects. *)

From Stdlib Require Import ZArith.
From stdpp Require Import base option list strings gmap fin_maps.

#[local] Open Scope Z_scope.
#[local] Set Warnings "-register-all".

(** ** Python values

    The values that travel through [json=payload] and [resp.json()]:
    [None], booleans, integers, strings, lists and string-keyed
    dictionaries.  (Non-integral numbers never occur in the client's own
    fields and are left out.) *)

Inductive pyvalue : Type :=
  | VNone
  | VBool (b : bool)
  | VInt (n : Z)
  | VStr (s : string)
  | VList (l : list pyvalue)
  | VDict (d : gmap string pyvalue).

Abbreviation dict := (gmap string pyvalue).

(** A [List[str]] argument as a Python value. *)
Definition of_strs (l : list string) : pyvalue := VList (VStr <$> l).

(** An [Optional[_]] argument as a Python value: [None] stays [None]. *)
Definition of_optional {A} (inj : A → pyvalue) (x : option A) : pyvalue :=
  match x with
  | Some a => inj a
  | None => VNone
  end.

(** *** Truth value testing ([bool(x)], as used by [not], [or], [if]) *)

Class Truthy (A : Type) := truthy : A → bool.

#[global] Instance truthy_str : Truthy string := λ s,
  match s with
  | EmptyString => false
  | String _ _ => true
  end.

#[global] Instance truthy_list {A} : Truthy (list A) := λ l,
  match l with
  | [] => false
  | _ :: _ => true
  end.

#[global] Instance truthy_dict : Truthy dict := λ d,
  negb (Nat.eqb (size d) 0).

#[global] Instance truthy_optional `{Truthy A} : Truthy (option A) := λ x,
  match x with
  | Some a => truthy a
  | None => false
  end.

(** [x or default], for an [Optional] [x]: [x] when it is truthy, otherwise
    [default]. *)
Definition py_or `{Truthy A} (x : option A) (default : A) : A :=
  match x with
  | Some a => if truthy a then a else default
  | None => default
  end.

(** *** [str.rstrip(chars)] *)

Fixpoint char_in (a : Ascii.ascii) (chars : string) : bool :=
  match chars with
  | EmptyString => false
  | String c chars' => if Ascii.eqb a c then true else char_in a chars'
  end.

Fixpoint rstrip (chars : string) (s : string) : string :=
  match s with
  | EmptyString => EmptyString
  | String a s' =>
      match rstrip chars s' with
      | EmptyString => if char_in a chars then EmptyString else String a EmptyString
      | r => String a r
      end
  end.

(** ** Exceptions *)

Inductive exception : Type :=
  | ValueError
  | KeyError
  | TypeError
  | AttributeError
  | ValidationError
  | HTTPStatusError
  | JSONDecodeError
  | TransportError.

Inductive result (A : Type) : Type :=
  | Ok (a : A)
  | Raise (e : exception).
Arguments Ok {A} a.
Arguments Raise {A} e.

#[global] Instance result_ret : MRet result := λ A a, Ok a.
#[global] Instance result_bind : MBind result := λ A B f m,
  match m with
  | Ok a => f a
  | Raise e => Raise e
  end.

(** [obj[key]] *)
Definition getitem (obj : pyvalue) (key : string) : result pyvalue :=
  match obj with
  | VDict d => from_option Ok (Raise KeyError) (d !! key)
  | _ => Raise TypeError
  end.

(** [obj.get(key, default)]: only dictionaries have a [get] method. *)
Definition get (obj : pyvalue) (key : string) (default : pyvalue) : result pyvalue :=
  match obj with
  | VDict d => Ok (from_option id default (d !! key))
  | _ => Raise AttributeError
  end.

(** [outer[k1][k2] = v]: the nested dictionary is updated in place. *)
Definition setitem_in (k1 k2 : string) (v : pyvalue) (outer : dict) : dict :=
  alter (λ inner,
    match inner with
    | VDict d => VDict (<[k2 := v]> d)
    | other => other
    end) k1 outer.

(** ** HTTP requests and responses

    What the client hands to the HTTP library ([requests] or [httpx]) and
    what it uses of the response object it gets back: [raise_for_status()]
    and [json()].  Both libraries let every 2xx response pass
    [raise_for_status]. *)

Inductive Method : Type := GET | POST | DELETE.

Record Request : Type := {
  method : Method;
  url : string;
  json_body : option dict;
}.

Record Response : Type := {
  status_code : Z;
  raise_for_status : result ();
  json : result pyvalue;
  raise_for_status_2xx :
    200 ≤ status_code ≤ 299 → raise_for_status = Ok ();
}.

(** ** pydantic: scalar validators

    [models.py] declares its fields with the types [str], [int], [bool],
    [HttpUrl] and [datetime]; how pydantic coerces an input to each of them
    is the library's business, so the scalar validators are an interface.
    What is fixed is that a value that already has the field's type is
    accepted unchanged. *)

Class PydanticCore : Type := {
  HttpUrl : Type;
  datetime : Type;
  validate_str : pyvalue → option string;
  validate_int : pyvalue → option Z;
  validate_bool : pyvalue → option bool;
  validate_http_url : pyvalue → option HttpUrl;
  validate_datetime : pyvalue → option datetime;
  validate_str_exact : ∀ s, validate_str (VStr s) = Some s;
  validate_int_exact : ∀ n, validate_int (VInt n) = Some n;
  validate_bool_exact : ∀ b, validate_bool (VBool b) = Some b;
}.

(** A required field: the key must be present and its value must validate. *)
Definition required {A} (validate : pyvalue → option A)
    (key : string) (d : dict) : option A :=
  d !! key ≫= validate.

(** An [Optional[_] = None] field: a missing key takes the default [None],
    an explicit [None] is accepted, anything else must validate. *)
Definition optional {A} (validate : pyvalue → option A)
    (key : string) (d : dict) : option (option A) :=
  match d !! key with
  | None => Some None
  | Some VNone => Some None
  | Some v => Some <$> validate v
  end.

(** [List[T]] *)
Definition validate_list {A} (validate : pyvalue → option A)
    (obj : pyvalue) : option (list A) :=
  match obj with
  | VList l => mapM validate l
  | _ => None
  end.

(** [Dict[str, Any]] *)
Definition validate_dict (obj : pyvalue) : option dict :=
  match obj with
  | VDict d => Some d
  | _ => None
  end.

(** [Model.model_validate(obj)]: a [ValidationError] when [obj] does not
    validate. *)
Definition model_validate_with {A} (validate : pyvalue → option A)
    (obj : pyvalue) : result A :=
  from_option Ok (Raise ValidationError) (validate obj).

(** ** models.py *)

Module OutputFormat.
Inductive t : Type :=
  | MARKDOWN
  | HTML
  | RAW_HTML
  | LINKS
  | SCREENSHOT
  | SCREENSHOT_FULL.

Definition value (m : t) : string :=
  match m with
  | MARKDOWN => "markdown"
  | HTML => "html"
  | RAW_HTML => "rawHtml"
  | LINKS => "links"
  | SCREENSHOT => "screenshot"
  | SCREENSHOT_FULL => "screenshot@fullPage"
  end.

Definition members : list t :=
  [MARKDOWN; HTML; RAW_HTML; LINKS; SCREENSHOT; SCREENSHOT_FULL].

(** [OutputFormat(s)]: the member whose value is [s], if any. *)
Definition of_value (s : string) : option t :=
  List.find (λ m, String.eqb (value m) s) members.

Definition validate (obj : pyvalue) : option t :=
  match obj with
  | VStr s => of_value s
  | _ => None
  end.
End OutputFormat.

Module CrawlState.
Inductive t : Type :=
  | SCRAPING
  | COMPLETED
  | FAILED.

Definition value (m : t) : string :=
  match m with
  | SCRAPING => "scraping"
  | COMPLETED => "completed"
  | FAILED => "failed"
  end.

Definition members : list t := [SCRAPING; COMPLETED; FAILED].

Definition of_value (s : string) : option t :=
  List.find (λ m, String.eqb (value m) s) members.

Definition validate (obj : pyvalue) : option t :=
  match obj with
  | VStr s => of_value s
  | _ => None
  end.
End CrawlState.

Module Metadata.
Section model.
Context `{PydanticCore}.

(** [model_extra] holds the undeclared keys kept by [extra="allow"]. *)
Record t : Type := {
  title : option string;
  description : option string;
  language : option string;
  sourceURL : HttpUrl;
  statusCode : Z;
  error : option string;
  model_extra : dict;
}.

Definition model_fields : list string :=
  ["title"; "description"; "language"; "sourceURL"; "statusCode"; "error"].

Definition validate_fields (d : dict) : option t :=
  title ← optional validate_str "title" d;
  description ← optional validate_str "description" d;
  language ← optional validate_str "language" d;
  sourceURL ← required validate_http_url "sourceURL" d;
  statusCode ← required validate_int "statusCode" d;
  error ← optional validate_str "error" d;
  Some {| title := title; description := description; language := language;
          sourceURL := sourceURL; statusCode := statusCode; error := error;
          model_extra := filter (λ kv, kv.1 ∉ model_fields) d |}.

Definition validate (obj : pyvalue) : option t :=
  match obj with
  | VDict d => validate_fields d
  | _ => None
  end.

Definition model_validate : pyvalue → result t :=
  model_validate_with validate.
End model.
End Metadata.

Module ScrapeResult.
Section model.
Context `{PydanticCore}.

Record t : Type := {
  markdown : option string;
  html : option string;
  raw_html : option string;
  links : option (list string);
  metadata : Metadata.t;
  llm_extraction : option dict;
  warning : option string;
}.

Definition validate_fields (d : dict) : option t :=
  markdown ← optional validate_str "markdown" d;
  html ← optional validate_str "html" d;
  raw_html ← optional validate_str "rawHtml" d;
  links ← optional (validate_list validate_str) "links" d;
  metadata ← required Metadata.validate "metadata" d;
  llm_extraction ← optional validate_dict "llm_extraction" d;
  warning ← optional validate_str "warning" d;
  Some {| markdown := markdown; html := html; raw_html := raw_html;
          links := links; metadata := metadata;
          llm_extraction := llm_extraction; warning := warning |}.

Definition validate (obj : pyvalue) : option t :=
  match obj with
  | VDict d => validate_fields d
  | _ => None
  end.

Definition model_validate : pyvalue → result t :=
  model_validate_with validate.
End model.
End ScrapeResult.

Module CrawlStatus.
Section model.
Context `{PydanticCore}.

Record t : Type := {
  status : CrawlState.t;
  total : Z;
  completed : Z;
  expires_at : datetime;
  next : option string;
  data : list ScrapeResult.t;
}.

Definition validate_fields (d : dict) : option t :=
  status ← required CrawlState.validate "status" d;
  total ← required validate_int "total" d;
  completed ← required validate_int "completed" d;
  expires_at ← required validate_datetime "expiresAt" d;
  next ← optional validate_str "next" d;
  data ← required (validate_list ScrapeResult.validate) "data" d;
  Some {| status := status; total := total; completed := completed;
          expires_at := expires_at; next := next; data := data |}.

Definition validate (obj : pyvalue) : option t :=
  match obj with
  | VDict d => validate_fields d
  | _ => None
  end.

Definition model_validate : pyvalue → result t :=
  model_validate_with validate.
End model.
End CrawlStatus.

Module CrawlJob.
Section model.
Context `{PydanticCore}.

Record t : Type := {
  success : bool;
  id : string;
  url : HttpUrl;
}.

Definition validate_fields (d : dict) : option t :=
  success ← required validate_bool "success" d;
  id ← required validate_str "id" d;
  url ← required validate_http_url "url" d;
  Some {| success := success; id := id; url := url |}.

Definition validate (obj : pyvalue) : option t :=
  match obj with
  | VDict d => validate_fields d
  | _ => None
  end.

Definition model_validate : pyvalue → result t :=
  model_validate_with validate.
End model.
End CrawlJob.

Module MapResult.
Section model.
Context `{PydanticCore}.

Record t : Type := {
  success : bool;
  links : list string;
}.

Definition validate_fields (d : dict) : option t :=
  success ← required validate_bool "success" d;
  links ← required (validate_list validate_str) "links" d;
  Some {| success := success; links := links |}.

Definition validate (obj : pyvalue) : option t :=
  match obj with
  | VDict d => validate_fields d
  | _ => None
  end.

Definition model_validate : pyvalue → result t :=
  model_validate_with validate.
End model.
End MapResult.

(** ** sync_client.py

    [self.session] is the [requests.Session] the constructor creates; it is
    the [session] variable below, which takes the request the client issues
    to the response object the library returns (or raises). *)

Module FirecrawlClient.

Record t : Type := {
  base_url : string;
}.

Definition __init__ (base_url : string) : result t :=
  if negb (truthy base_url) then Raise ValueError
  else Ok {| base_url := rstrip "/" base_url |}.

Definition scrape_payload (url : string)
    (formats include_tags exclude_tags : option (list string))
    (headers : option dict) (wait_for timeout : Z)
    (extract_schema : option dict)
    (extract_system_prompt extract_prompt : option string) : dict :=
  let payload : dict :=
    {[ "url" := VStr url;
       "formats" := of_strs (py_or formats ["markdown"]);
       "waitFor" := VInt wait_for;
       "timeout" := VInt timeout ]} in
  let payload :=
    match include_tags with
    | Some tags => <["includeTags" := of_strs tags]> payload
    | None => payload
    end in
  let payload :=
    match exclude_tags with
    | Some tags => <["excludeTags" := of_strs tags]> payload
    | None => payload
    end in
  let payload :=
    match headers with
    | Some h => <["headers" := VDict h]> payload
    | None => payload
    end in
  if truthy extract_schema || truthy extract_system_prompt || truthy extract_prompt
  then
    <["extract" := VDict
        {[ "schema" := of_optional VDict extract_schema;
           "systemPrompt" := of_optional VStr extract_system_prompt;
           "prompt" := of_optional VStr extract_prompt ]}]> payload
  else payload.

Definition crawl_payload (url : string)
    (exclude_paths include_paths : option (list string))
    (max_depth : Z) (ignore_sitemap : bool) (limit : Z)
    (allow_backward_links allow_external_links : bool)
    (webhook : option string) (scrape_formats : option (list string))
    (scrape_headers : option dict)
    (scrape_include_tags scrape_exclude_tags : option (list string))
    (scrape_wait_for : Z) : dict :=
  let payload : dict :=
    {[ "url" := VStr url;
       "maxDepth" := VInt max_depth;
       "ignoreSitemap" := VBool ignore_sitemap;
       "limit" := VInt limit;
       "allowBackwardLinks" := VBool allow_backward_links;
       "allowExternalLinks" := VBool allow_external_links;
       "scrapeOptions" := VDict
         {[ "formats" := of_strs (py_or scrape_formats ["markdown"]);
            "waitFor" := VInt scrape_wait_for ]} ]} in
  let payload :=
    match exclude_paths with
    | Some paths => <["excludePaths" := of_strs paths]> payload
    | None => payload
    end in
  let payload :=
    match include_paths with
    | Some paths => <["includePaths" := of_strs paths]> payload
    | None => payload
    end in
  let payload :=
    match webhook with
    | Some w => <["webhook" := VStr w]> payload
    | None => payload
    end in
  let payload :=
    match scrape_headers with
    | Some h => setitem_in "scrapeOptions" "headers" (VDict h) payload
    | None => payload
    end in
  let payload :=
    match scrape_include_tags with
    | Some tags => setitem_in "scrapeOptions" "includeTags" (of_strs tags) payload
    | None => payload
    end in
  match scrape_exclude_tags with
  | Some tags => setitem_in "scrapeOptions" "excludeTags" (of_strs tags) payload
  | None => payload
  end.

Definition map_payload (url : string) (search : option string)
    (ignore_sitemap include_subdomains : bool) (limit : Z) : dict :=
  let payload : dict :=
    {[ "url" := VStr url;
       "ignoreSitemap" := VBool ignore_sitemap;
       "includeSubdomains" := VBool include_subdomains;
       "limit" := VInt limit ]} in
  match search with
  | Some q => <["search" := VStr q]> payload
  | None => payload
  end.

(** The request each method issues. *)

Definition scrape_request (self : t) url formats include_tags exclude_tags
    headers wait_for timeout extract_schema extract_system_prompt
    extract_prompt : Request :=
  {| method := POST;
     url := base_url self +:+ "/scrape";
     json_body := Some (scrape_payload url formats include_tags exclude_tags
                          headers wait_for timeout extract_schema
                          extract_system_prompt extract_prompt) |}.

Definition crawl_request (self : t) url exclude_paths include_paths max_depth
    ignore_sitemap limit allow_backward_links allow_external_links webhook
    scrape_formats scrape_headers scrape_include_tags scrape_exclude_tags
    scrape_wait_for : Request :=
  {| method := POST;
     url := base_url self +:+ "/crawl";
     json_body := Some (crawl_payload url exclude_paths include_paths
                          max_depth ignore_sitemap limit allow_backward_links
                          allow_external_links webhook scrape_formats
                          scrape_headers scrape_include_tags
                          scrape_exclude_tags scrape_wait_for) |}.

Definition get_crawl_status_request (self : t) (job_id : string) : Request :=
  {| method := GET;
     url := base_url self +:+ "/crawl/" +:+ job_id;
     json_body := None |}.

Definition cancel_crawl_request (self : t) (job_id : string) : Request :=
  {| method := DELETE;
     url := base_url self +:+ "/crawl/" +:+ job_id;
     json_body := None |}.

Definition map_request (self : t) url search ignore_sitemap
    include_subdomains limit : Request :=
  {| method := POST;
     url := base_url self +:+ "/map";
     json_body := Some (map_payload url search ignore_sitemap
                          include_subdomains limit) |}.

Section methods.
Context `{PydanticCore}.
Variable session : Request → result Response.

Definition scrape (self : t) url formats include_tags exclude_tags headers
    wait_for timeout extract_schema extract_system_prompt extract_prompt
    : result ScrapeResult.t :=
  resp ← session (scrape_request self url formats include_tags exclude_tags
                    headers wait_for timeout extract_schema
                    extract_system_prompt extract_prompt);
  _ ← raise_for_status resp;
  data ← json resp;
  page ← getitem data "data";
  ScrapeResult.model_validate page.

Definition crawl (self : t) url exclude_paths include_paths max_depth
    ignore_sitemap limit allow_backward_links allow_external_links webhook
    scrape_formats scrape_headers scrape_include_tags scrape_exclude_tags
    scrape_wait_for : result CrawlJob.t :=
  resp ← session (crawl_request self url exclude_paths include_paths
                    max_depth ignore_sitemap limit allow_backward_links
                    allow_external_links webhook scrape_formats
                    scrape_headers scrape_include_tags scrape_exclude_tags
                    scrape_wait_for);
  _ ← raise_for_status resp;
  data ← json resp;
  CrawlJob.model_validate data.

Definition get_crawl_status (self : t) (job_id : string)
    : result CrawlStatus.t :=
  resp ← session (get_crawl_status_request self job_id);
  _ ← raise_for_status resp;
  data ← json resp;
  CrawlStatus.model_validate data.

Definition cancel_crawl (self : t) (job_id : string) : result pyvalue :=
  resp ← session (cancel_crawl_request self job_id);
  _ ← raise_for_status resp;
  data ← json resp;
  get data "success" (VBool false).

Definition map (self : t) url search ignore_sitemap include_subdomains limit
    : result MapResult.t :=
  resp ← session (map_request self url search ignore_sitemap
                    include_subdomains limit);
  _ ← raise_for_status resp;
  data ← json resp;
  MapResult.model_validate data.

(** Calls that leave every keyword argument at its default. *)

Definition scrape_defaults (self : t) (url : string) : result ScrapeResult.t :=
  scrape self url None None None None 0 30000 None None None.

End methods.
End FirecrawlClient.

(** ** async_client.py

    [self.client] is the [httpx.AsyncClient] the constructor creates.  Every
    method awaits exactly one call of it and then continues as the
    synchronous method does, so an awaited call is the call's outcome. *)

Module AsyncFirecrawlClient.

Record t : Type := {
  base_url : string;
}.

Definition __init__ (base_url : string) : result t :=
  if negb (truthy base_url) then Raise ValueError
  else Ok {| base_url := rstrip "/" base_url |}.

Definition scrape_payload (url : string)
    (formats include_tags exclude_tags : option (list string))
    (headers : option dict) (wait_for timeout : Z)
    (extract_schema : option dict)
    (extract_system_prompt extract_prompt : option string) : dict :=
  let payload : dict :=
    {[ "url" := VStr url;
       "formats" := of_strs (py_or formats ["markdown"]);
       "waitFor" := VInt wait_for;
       "timeout" := VInt timeout ]} in
  let payload :=
    match include_tags with
    | Some tags => <["includeTags" := of_strs tags]> payload
    | None => payload
    end in
  let payload :=
    match exclude_tags with
    | Some tags => <["excludeTags" := of_strs tags]> payload
    | None => payload
    end in
  let payload :=
    match headers with
    | Some h => <["headers" := VDict h]> payload
    | None => payload
    end in
  if truthy extract_schema || truthy extract_system_prompt || truthy extract_prompt
  then
    <["extract" := VDict
        {[ "schema" := of_optional VDict extract_schema;
           "systemPrompt" := of_optional VStr extract_system_prompt;
           "prompt" := of_optional VStr extract_prompt ]}]> payload
  else payload.

Definition crawl_payload (url : string)
    (exclude_paths include_paths : option (list string))
    (max_depth : Z) (ignore_sitemap : bool) (limit : Z)
    (allow_backward_links allow_external_links : bool)
    (webhook : option string) (scrape_formats : option (list string))
    (scrape_headers : option dict)
    (scrape_include_tags scrape_exclude_tags : option (list string))
    (scrape_wait_for : Z) : dict :=
  let payload : dict :=
    {[ "url" := VStr url;
       "maxDepth" := VInt max_depth;
       "ignoreSitemap" := VBool ignore_sitemap;
       "limit" := VInt limit;
       "allowBackwardLinks" := VBool allow_backward_links;
       "allowExternalLinks" := VBool allow_external_links;
       "scrapeOptions" := VDict
         {[ "formats" := of_strs (py_or scrape_formats ["markdown"]);
            "waitFor" := VInt scrape_wait_for ]} ]} in
  let payload :=
    match exclude_paths with
    | Some paths => <["excludePaths" := of_strs paths]> payload
    | None => payload
    end in
  let payload :=
    match include_paths with
    | Some paths => <["includePaths" := of_strs paths]> payload
    | None => payload
    end in
  let payload :=
    match webhook with
    | Some w => <["webhook" := VStr w]> payload
    | None => payload
    end in
  let payload :=
    match scrape_headers with
    | Some h => setitem_in "scrapeOptions" "headers" (VDict h) payload
    | None => payload
    end in
  let payload :=
    match scrape_include_tags with
    | Some tags => setitem_in "scrapeOptions" "includeTags" (of_strs tags) payload
    | None => payload
    end in
  match scrape_exclude_tags with
  | Some tags => setitem_in "scrapeOptions" "excludeTags" (of_strs tags) payload
  | None => payload
  end.

Definition map_payload (url : string) (search : option string)
    (ignore_sitemap include_subdomains : bool) (limit : Z) : dict :=
  let payload : dict :=
    {[ "url" := VStr url;
       "ignoreSitemap" := VBool ignore_sitemap;
       "includeSubdomains" := VBool include_subdomains;
       "limit" := VInt limit ]} in
  match search with
  | Some q => <["search" := VStr q]> payload
  | None => payload
  end.

(** The request each method issues. *)

Definition scrape_request (self : t) url formats include_tags exclude_tags
    headers wait_for timeout extract_schema extract_system_prompt
    extract_prompt : Request :=
  {| method := POST;
     url := base_url self +:+ "/scrape";
     json_body := Some (scrape_payload url formats include_tags exclude_tags
                          headers wait_for timeout extract_schema
                          extract_system_prompt extract_prompt) |}.

Definition crawl_request (self : t) url exclude_paths include_paths max_depth
    ignore_sitemap limit allow_backward_links allow_external_links webhook
    scrape_formats scrape_headers scrape_include_tags scrape_exclude_tags
    scrape_wait_for : Request :=
  {| method := POST;
     url := base_url self +:+ "/crawl";
     json_body := Some (crawl_payload url exclude_paths include_paths
                          max_depth ignore_sitemap limit allow_backward_links
                          allow_external_links webhook scrape_formats
                          scrape_headers scrape_include_tags
                          scrape_exclude_tags scrape_wait_for) |}.

Definition get_crawl_status_request (self : t) (job_id : string) : Request :=
  {| method := GET;
     url := base_url self +:+ "/crawl/" +:+ job_id;
     json_body := None |}.

Definition cancel_crawl_request (self : t) (job_id : string) : Request :=
  {| method := DELETE;
     url := base_url self +:+ "/crawl/" +:+ job_id;
     json_body := None |}.

Definition map_request (self : t) url search ignore_sitemap
    include_subdomains limit : Request :=
  {| method := POST;
     url := base_url self +:+ "/map";
     json_body := Some (map_payload url search ignore_sitemap
                          include_subdomains limit) |}.

Section methods.
Context `{PydanticCore}.
Variable client : Request → result Response.

Definition scrape (self : t) url formats include_tags exclude_tags headers
    wait_for timeout extract_schema extract_system_prompt extract_prompt
    : result ScrapeResult.t :=
  resp ← client (scrape_request self url formats include_tags exclude_tags
                    headers wait_for timeout extract_schema
                    extract_system_prompt extract_prompt);
  _ ← raise_for_status resp;
  data ← json resp;
  page ← getitem data "data";
  ScrapeResult.model_validate page.

Definition crawl (self : t) url exclude_paths include_paths max_depth
    ignore_sitemap limit allow_backward_links allow_external_links webhook
    scrape_formats scrape_headers scrape_include_tags scrape_exclude_tags
    scrape_wait_for : result CrawlJob.t :=
  resp ← client (crawl_request self url exclude_paths include_paths
                    max_depth ignore_sitemap limit allow_backward_links
                    allow_external_links webhook scrape_formats
                    scrape_headers scrape_include_tags scrape_exclude_tags
                    scrape_wait_for);
  _ ← raise_for_status resp;
  data ← json resp;
  CrawlJob.model_validate data.

Definition get_crawl_status (self : t) (job_id : string)
    : result CrawlStatus.t :=
  resp ← client (get_crawl_status_request self job_id);
  _ ← raise_for_status resp;
  data ← json resp;
  CrawlStatus.model_validate data.

Definition cancel_crawl (self : t) (job_id : string) : result pyvalue :=
  resp ← client (cancel_crawl_request self job_id);
  _ ← raise_for_status resp;
  data ← json resp;
  get data "success" (VBool false).

Definition map (self : t) url search ignore_sitemap include_subdomains limit
    : result MapResult.t :=
  resp ← client (map_request self url search ignore_sitemap
                    include_subdomains limit);
  _ ← raise_for_status resp;
  data ← json resp;
  MapResult.model_validate data.

(** Calls that leave every keyword argument at its default. *)

Definition scrape_defaults (self : t) (url : string) : result ScrapeResult.t :=
  scrape self url None None None None 0 30000 None None None.

End methods.

(** Releasing the transport.  [aclose] is [httpx.AsyncClient.aclose]: it
    takes the state of the transport to its state once closed, and may
    raise. *)

Section lifecycle.
Context {Transport : Type}.
Variable aclose : Transport → result () * Transport.

Definition close (self : t) (transport : Transport)
    : result () * Transport :=
  aclose transport.

Definition __aenter__ (self : t) : t := self.

(** [__aexit__] returns [None], whatever exception it is told of: it never
    asks for that exception to be suppressed. *)
Definition __aexit__ (self : t) (exc : option exception)
    (transport : Transport) : result () * Transport :=
  close self transport.

(** [async with self as client: body], as in the usage the class documents:
    the body runs on what [__aenter__] returns, then [__aexit__] is awaited
    with the exception the body raised, if any. *)
Definition async_with {A} (self : t)
    (body : t → Transport → result A * Transport)
    (transport : Transport) : result A * Transport :=
  let client := __aenter__ self in
  let '(outcome, transport) := body client transport in
  let exc := match outcome with Ok _ => None | Raise e => Some e end in
  let '(exited, transport) := __aexit__ self exc transport in
  (match exited with Ok _ => outcome | Raise e => Raise e end, transport).

End lifecycle.
End AsyncFirecrawlClient.

(** ** Concrete inputs

    A strict instance of the scalar validators, on which the models can be
    run: every scalar accepts exactly the values of its own type, a URL is
    a string with an [http] or [https] scheme, a timestamp is kept as its
    text. *)

Definition strict_core : PydanticCore := {|
  HttpUrl := string;
  datetime := string;
  validate_str := λ v, match v with VStr s => Some s | _ => None end;
  validate_int := λ v, match v with VInt n => Some n | _ => None end;
  validate_bool := λ v, match v with VBool b => Some b | _ => None end;
  validate_http_url := λ v,
    match v with
    | VStr s =>
        if String.prefix "http://" s || String.prefix "https://" s
        then Some s else None
    | _ => None
    end;
  validate_datetime := λ v, match v with VStr s => Some s | _ => None end;
  validate_str_exact := λ _, eq_refl;
  validate_int_exact := λ _, eq_refl;
  validate_bool_exact := λ _, eq_refl;
|}.

(** A [200 OK] response with the given decoded body. *)
Definition ok_response (body : pyvalue) : Response := {|
  status_code := 200;
  raise_for_status := Ok ();
  json := Ok body;
  raise_for_status_2xx := λ _, eq_refl;
|}.

(** A [500] response: [raise_for_status] raises, whatever the body. *)
Definition server_error_response (body : pyvalue) : Response := {|
  status_code := 500;
  raise_for_status := Raise HTTPStatusError;
  json := Ok body;
  raise_for_status_2xx := λ H, match proj2 H eq_refl with end;
|}.

(** No value of the dictionary is [None] (no key is sent as JSON [null]). *)
Definition no_null (d : dict) : Prop :=
  map_Forall (λ _ v, v ≠ VNone) d.

(** ** The HTTP libraries

    What each library makes of one answer of the server, a status code and
    a body that decodes as JSON or does not.  [requests] raises from
    [raise_for_status] on the client and server errors only (a status from
    400 to 599); [httpx] raises on every status that is not a success
    (outside 200 to 299). *)





(** The session of the synchronous client and the client of the
    asynchronous one, in front of the same server. *)



(** * Properties *)

(** ** Base URL *)

Lemma rstrip_app_slash (s : string) :
  rstrip "/" (s +:+ "/") = rstrip "/" s.
Proof.
  induction s as [|a s IH]; [reflexivity|].
  simpl. now rewrite IH.
Qed.

Lemma truthy_app_slash (s : string) : truthy (s +:+ "/") = true.
Proof. now destruct s. Qed.

Lemma truthy_nonempty (s : string) : s ≠ "" → truthy s = true.
Proof. now destruct s. Qed.

(** C7. For every non-empty base URL, the client built from the URL with a
    slash appended and the client built from the URL itself are both
    constructed, and every operation of one issues the same request (hence
    the same request URL) as that operation of the other; for both the
    synchronous and the asynchronous client. *)
Theorem base_url_trailing_slash (b : string) :
  b ≠ "" →
  (∃ c1 c2,
      FirecrawlClient.__init__ (b +:+ "/") = Ok c1 ∧
      FirecrawlClient.__init__ b = Ok c2 ∧
      (∀ u f it et h w t es esp ep,
          FirecrawlClient.scrape_request c1 u f it et h w t es esp ep =
          FirecrawlClient.scrape_request c2 u f it et h w t es esp ep) ∧
      (∀ u xp ip md ig l ab ae wh sf sh sit set sw,
          FirecrawlClient.crawl_request c1 u xp ip md ig l ab ae wh sf sh sit set sw =
          FirecrawlClient.crawl_request c2 u xp ip md ig l ab ae wh sf sh sit set sw) ∧
      (∀ job_id,
          FirecrawlClient.get_crawl_status_request c1 job_id =
          FirecrawlClient.get_crawl_status_request c2 job_id) ∧
      (∀ job_id,
          FirecrawlClient.cancel_crawl_request c1 job_id =
          FirecrawlClient.cancel_crawl_request c2 job_id) ∧
      (∀ u q ig isd l,
          FirecrawlClient.map_request c1 u q ig isd l =
          FirecrawlClient.map_request c2 u q ig isd l)) ∧
  (∃ c1 c2,
      AsyncFirecrawlClient.__init__ (b +:+ "/") = Ok c1 ∧
      AsyncFirecrawlClient.__init__ b = Ok c2 ∧
      (∀ u f it et h w t es esp ep,
          AsyncFirecrawlClient.scrape_request c1 u f it et h w t es esp ep =
          AsyncFirecrawlClient.scrape_request c2 u f it et h w t es esp ep) ∧
      (∀ u xp ip md ig l ab ae wh sf sh sit set sw,
          AsyncFirecrawlClient.crawl_request c1 u xp ip md ig l ab ae wh sf sh sit set sw =
          AsyncFirecrawlClient.crawl_request c2 u xp ip md ig l ab ae wh sf sh sit set sw) ∧
      (∀ job_id,
          AsyncFirecrawlClient.get_crawl_status_request c1 job_id =
          AsyncFirecrawlClient.get_crawl_status_request c2 job_id) ∧
      (∀ job_id,
          AsyncFirecrawlClient.cancel_crawl_request c1 job_id =
          AsyncFirecrawlClient.cancel_crawl_request c2 job_id) ∧
      (∀ u q ig isd l,
          AsyncFirecrawlClient.map_request c1 u q ig isd l =
          AsyncFirecrawlClient.map_request c2 u q ig isd l)).
Proof.
  intros Hb. split.
  - exists (FirecrawlClient.Build_t (rstrip "/" b)),
           (FirecrawlClient.Build_t (rstrip "/" b)).
    unfold FirecrawlClient.__init__.
    rewrite truthy_app_slash, (truthy_nonempty b Hb), rstrip_app_slash.
    repeat split.
  - exists (AsyncFirecrawlClient.Build_t (rstrip "/" b)),
           (AsyncFirecrawlClient.Build_t (rstrip "/" b)).
    unfold AsyncFirecrawlClient.__init__.
    rewrite truthy_app_slash, (truthy_nonempty b Hb), rstrip_app_slash.
    repeat split.
Qed.

Lemma base_url_trailing_slash_witness :
  "https://api.firecrawl.dev/v1" ≠ "" ∧
  ∃ c1 c2,
    FirecrawlClient.__init__ "https://api.firecrawl.dev/v1/" = Ok c1 ∧
    FirecrawlClient.__init__ "https://api.firecrawl.dev/v1" = Ok c2 ∧
    url (FirecrawlClient.get_crawl_status_request c1 "job-1") =
    url (FirecrawlClient.get_crawl_status_request c2 "job-1").
Proof.
  split; [discriminate|].
  destruct (base_url_trailing_slash "https://api.firecrawl.dev/v1")
    as [(c1 & c2 & H1 & H2 & _ & _ & Hstatus & _) _]; [discriminate|].
  exists c1, c2. repeat split; [exact H1 | exact H2 |].
  now rewrite (Hstatus "job-1").
Defined.

(** ** Enumerations *)

Lemma output_format_of_value_value (m : OutputFormat.t) :
  OutputFormat.of_value (OutputFormat.value m) = Some m.
Proof. now destruct m. Qed.

Lemma output_format_of_value_Some (s : string) (m : OutputFormat.t) :
  OutputFormat.of_value s = Some m → OutputFormat.value m = s.
Proof.
  unfold OutputFormat.of_value. intros Hfind.
  apply List.find_some in Hfind as [_ Heq].
  now apply String.eqb_eq in Heq.
Qed.

(** C3, as claimed, fails: the string [screenshot-full-page] is not one of
    the values of [OutputFormat], so the set of strings that validate is
    not the claimed one. *)
Lemma output_format_claimed_values_refuted :
  ¬ (∀ s : string,
       is_Some (OutputFormat.validate (VStr s)) ↔
       s ∈ ["markdown"; "html"; "rawHtml"; "links"; "screenshot";
            "screenshot-full-page"]).
Proof.
  intros Hclaim.
  destruct (proj2 (Hclaim "screenshot-full-page")) as [m Hm].
  - repeat constructor.
  - vm_compute in Hm. discriminate.
Qed.

(** C3, amended. [OutputFormat] is the closed set of the six string values
    markdown, html, rawHtml, links, screenshot and screenshot@fullPage: a
    string validates against [OutputFormat] exactly when it is one of these
    six, each member is found again from its own value, and a value that is
    not a string does not validate. *)
Theorem output_format_closed_set :
  (∀ s : string,
     is_Some (OutputFormat.validate (VStr s)) ↔
     s ∈ ["markdown"; "html"; "rawHtml"; "links"; "screenshot";
          "screenshot@fullPage"]) ∧
  (∀ m : OutputFormat.t,
     OutputFormat.validate (VStr (OutputFormat.value m)) = Some m) ∧
  (∀ obj : pyvalue,
     is_Some (OutputFormat.validate obj) ↔
     ∃ m, obj = VStr (OutputFormat.value m)).
Proof.
  split; [|split].
  - intros s. split.
    + intros [m Hm]. cbn in Hm.
      apply output_format_of_value_Some in Hm as <-.
      destruct m; cbn; repeat constructor.
    + intros Hin. cbn.
      repeat (apply elem_of_cons in Hin as [->|Hin]; [now eexists|]).
      now apply elem_of_nil in Hin.
  - intros m. apply output_format_of_value_value.
  - intros obj. split.
    + intros [m Hm]. destruct obj; try discriminate. cbn in Hm.
      exists m. now rewrite (output_format_of_value_Some _ _ Hm).
    + intros [m ->]. unfold OutputFormat.validate.
      rewrite output_format_of_value_value. now eexists.
Qed.

(** ** Request payloads *)

(** [if x is not None: payload[k] = inj(x)], read at the key it sets and
    at any other key; likewise for a key of a nested dictionary. *)

Lemma lookup_set_optional {A} (inj : A → pyvalue) (x : option A)
    (k : string) (p : dict) :
  p !! k = None →
  match x with Some a => <[k := inj a]> p | None => p end !! k = inj <$> x.
Proof. intros Hp. destruct x; [apply lookup_insert_eq | exact Hp]. Qed.

Lemma lookup_set_optional_ne {A} (inj : A → pyvalue) (x : option A)
    (k k' : string) (p : dict) :
  k ≠ k' →
  match x with Some a => <[k := inj a]> p | None => p end !! k' = p !! k'.
Proof. intros Hk. destruct x; [now apply lookup_insert_ne | reflexivity]. Qed.

Lemma lookup_set_optional_in_ne {A} (inj : A → pyvalue) (x : option A)
    (k1 k2 k' : string) (p : dict) :
  k1 ≠ k' →
  match x with Some a => setitem_in k1 k2 (inj a) p | None => p end !! k'
  = p !! k'.
Proof. intros Hk. destruct x; [now apply lookup_alter_ne | reflexivity]. Qed.

Lemma lookup_set_optional_in {A} (inj : A → pyvalue) (x : option A)
    (k1 k2 : string) (p d : dict) :
  p !! k1 = Some (VDict d) →
  match x with Some a => setitem_in k1 k2 (inj a) p | None => p end !! k1
  = Some (VDict match x with Some a => <[k2 := inj a]> d | None => d end).
Proof.
  intros Hp. destruct x; [|exact Hp].
  unfold setitem_in. now rewrite lookup_alter_eq, Hp.
Qed.

Lemma no_null_set_optional {A} (inj : A → pyvalue) (x : option A)
    (k : string) (p : dict) :
  (∀ a, inj a ≠ VNone) → no_null p →
  no_null match x with Some a => <[k := inj a]> p | None => p end.
Proof. intros Hinj Hp. destruct x; [now apply map_Forall_insert_2 | exact Hp]. Qed.

Lemma no_null_setitem_in (k1 k2 : string) (v : pyvalue) (d : dict) :
  no_null d → no_null (setitem_in k1 k2 v d).
Proof.
  intros Hd i x Hi. unfold setitem_in in Hi.
  apply lookup_alter_Some in Hi as [(_ & y & Hy & ->)|[_ Hi]].
  - specialize (Hd _ _ Hy). now destruct y.
  - exact (Hd _ _ Hi).
Qed.

Lemma no_null_set_optional_in {A} (inj : A → pyvalue) (x : option A)
    (k1 k2 : string) (p : dict) :
  no_null p →
  no_null match x with Some a => setitem_in k1 k2 (inj a) p | None => p end.
Proof. intros Hp. destruct x; [now apply no_null_setitem_in | exact Hp]. Qed.

Lemma no_null_insert (k : string) (v : pyvalue) (p : dict) :
  v ≠ VNone → no_null p → no_null (<[k := v]> p).
Proof. intros Hv Hp. now apply map_Forall_insert_2. Qed.

Lemma no_null_empty : no_null ∅.
Proof. apply map_Forall_empty. Qed.

(** Lookup in a payload: step over the conditional assignments to other
    keys, then read the dictionary display. *)
Ltac peel_payload :=
  cbv zeta;
  repeat first
    [ rewrite lookup_set_optional_ne by discriminate
    | rewrite lookup_set_optional_in_ne by discriminate ].

Ltac lookup_display := peel_payload; vm_compute; reflexivity.

Ltac lookup_optional :=
  peel_payload; rewrite lookup_set_optional; [reflexivity | lookup_display].

Ltac solve_no_null :=
  cbv zeta;
  repeat first
    [ apply no_null_empty
    | apply no_null_insert; [discriminate|]
    | apply no_null_set_optional_in
    | apply no_null_set_optional; [discriminate|] ].

Section scrape_payload.
Variables (u : string) (f it et : option (list string)) (h : option dict)
  (w t : Z) (es : option dict) (esp ep : option string).

Lemma scrape_payload_required :
  FirecrawlClient.scrape_payload u f it et h w t es esp ep !! "url"
    = Some (VStr u) ∧
  FirecrawlClient.scrape_payload u f it et h w t es esp ep !! "formats"
    = Some (of_strs (py_or f ["markdown"])) ∧
  FirecrawlClient.scrape_payload u f it et h w t es esp ep !! "waitFor"
    = Some (VInt w) ∧
  FirecrawlClient.scrape_payload u f it et h w t es esp ep !! "timeout"
    = Some (VInt t).
Proof.
  unfold FirecrawlClient.scrape_payload.
  repeat split;
    (destruct (truthy es || truthy esp || truthy ep);
     [rewrite lookup_insert_ne by discriminate|]; lookup_display).
Qed.

Lemma scrape_payload_optional :
  FirecrawlClient.scrape_payload u f it et h w t es esp ep !! "includeTags"
    = of_strs <$> it ∧
  FirecrawlClient.scrape_payload u f it et h w t es esp ep !! "excludeTags"
    = of_strs <$> et ∧
  FirecrawlClient.scrape_payload u f it et h w t es esp ep !! "headers"
    = VDict <$> h.
Proof.
  unfold FirecrawlClient.scrape_payload.
  repeat split;
    (destruct (truthy es || truthy esp || truthy ep);
     [rewrite lookup_insert_ne by discriminate|]; lookup_optional).
Qed.

Lemma scrape_payload_extract :
  FirecrawlClient.scrape_payload u f it et h w t es esp ep !! "extract" =
  if truthy es || truthy esp || truthy ep
  then Some (VDict {[ "schema" := of_optional VDict es;
                      "systemPrompt" := of_optional VStr esp;
                      "prompt" := of_optional VStr ep ]})
  else None.
Proof.
  unfold FirecrawlClient.scrape_payload.
  destruct (truthy es || truthy esp || truthy ep).
  - apply lookup_insert_eq.
  - lookup_display.
Qed.

Lemma scrape_payload_no_null :
  no_null (FirecrawlClient.scrape_payload u f it et h w t es esp ep).
Proof.
  unfold FirecrawlClient.scrape_payload.
  destruct (truthy es || truthy esp || truthy ep); solve_no_null.
Qed.

End scrape_payload.

Section crawl_payload.
Variables (u : string) (xp ip : option (list string)) (md : Z) (ig : bool)
  (l : Z) (ab ae : bool) (wh : option string) (sf : option (list string))
  (sh : option dict) (sit set : option (list string)) (sw : Z).

Lemma crawl_payload_required :
  FirecrawlClient.crawl_payload u xp ip md ig l ab ae wh sf sh sit set sw
    !! "url" = Some (VStr u) ∧
  FirecrawlClient.crawl_payload u xp ip md ig l ab ae wh sf sh sit set sw
    !! "maxDepth" = Some (VInt md) ∧
  FirecrawlClient.crawl_payload u xp ip md ig l ab ae wh sf sh sit set sw
    !! "ignoreSitemap" = Some (VBool ig) ∧
  FirecrawlClient.crawl_payload u xp ip md ig l ab ae wh sf sh sit set sw
    !! "limit" = Some (VInt l) ∧
  FirecrawlClient.crawl_payload u xp ip md ig l ab ae wh sf sh sit set sw
    !! "allowBackwardLinks" = Some (VBool ab) ∧
  FirecrawlClient.crawl_payload u xp ip md ig l ab ae wh sf sh sit set sw
    !! "allowExternalLinks" = Some (VBool ae).
Proof.
  unfold FirecrawlClient.crawl_payload. repeat split; lookup_display.
Qed.

Lemma crawl_payload_optional :
  FirecrawlClient.crawl_payload u xp ip md ig l ab ae wh sf sh sit set sw
    !! "excludePaths" = of_strs <$> xp ∧
  FirecrawlClient.crawl_payload u xp ip md ig l ab ae wh sf sh sit set sw
    !! "includePaths" = of_strs <$> ip ∧
  FirecrawlClient.crawl_payload u xp ip md ig l ab ae wh sf sh sit set sw
    !! "webhook" = VStr <$> wh.
Proof.
  unfold FirecrawlClient.crawl_payload. repeat split; lookup_optional.
Qed.

Lemma crawl_payload_no_null :
  no_null
    (FirecrawlClient.crawl_payload u xp ip md ig l ab ae wh sf sh sit set sw).
Proof. unfold FirecrawlClient.crawl_payload. solve_no_null. Qed.

Lemma crawl_scrape_options :
  ∃ so : dict,
    FirecrawlClient.crawl_payload u xp ip md ig l ab ae wh sf sh sit set sw
      !! "scrapeOptions" = Some (VDict so) ∧
    so !! "formats" = Some (of_strs (py_or sf ["markdown"])) ∧
    so !! "waitFor" = Some (VInt sw) ∧
    so !! "headers" = VDict <$> sh ∧
    so !! "includeTags" = of_strs <$> sit ∧
    so !! "excludeTags" = of_strs <$> set ∧
    no_null so.
Proof.
  eexists. split.
  - unfold FirecrawlClient.crawl_payload. cbv zeta.
    do 3 apply lookup_set_optional_in.
    repeat rewrite lookup_set_optional_ne by discriminate.
    repeat rewrite lookup_insert_ne by discriminate.
    apply lookup_singleton_eq.
  - repeat split;
      [ lookup_display | lookup_display
      | lookup_optional | lookup_optional | lookup_optional
      | solve_no_null ].
Qed.

End crawl_payload.

Section map_payload.
Variables (u : string) (q : option string) (ig isd : bool) (l : Z).

Lemma map_payload_required :
  FirecrawlClient.map_payload u q ig isd l !! "url" = Some (VStr u) ∧
  FirecrawlClient.map_payload u q ig isd l !! "ignoreSitemap"
    = Some (VBool ig) ∧
  FirecrawlClient.map_payload u q ig isd l !! "includeSubdomains"
    = Some (VBool isd) ∧
  FirecrawlClient.map_payload u q ig isd l !! "limit" = Some (VInt l).
Proof.
  unfold FirecrawlClient.map_payload. repeat split; lookup_display.
Qed.

Lemma map_payload_optional :
  FirecrawlClient.map_payload u q ig isd l !! "search" = VStr <$> q.
Proof. unfold FirecrawlClient.map_payload. lookup_optional. Qed.

Lemma map_payload_no_null :
  no_null (FirecrawlClient.map_payload u q ig isd l).
Proof. unfold FirecrawlClient.map_payload. solve_no_null. Qed.

End map_payload.

(** The asynchronous client builds its payloads as the synchronous one. *)

Lemma async_scrape_payload u f it et h w t es esp ep :
  AsyncFirecrawlClient.scrape_payload u f it et h w t es esp ep =
  FirecrawlClient.scrape_payload u f it et h w t es esp ep.
Proof. reflexivity. Qed.

Lemma async_crawl_payload u xp ip md ig l ab ae wh sf sh sit set sw :
  AsyncFirecrawlClient.crawl_payload u xp ip md ig l ab ae wh sf sh sit set sw =
  FirecrawlClient.crawl_payload u xp ip md ig l ab ae wh sf sh sit set sw.
Proof. reflexivity. Qed.

Lemma async_map_payload u q ig isd l :
  AsyncFirecrawlClient.map_payload u q ig isd l =
  FirecrawlClient.map_payload u q ig isd l.
Proof. reflexivity. Qed.

Lemma truthy_optional_str (x : option string) :
  truthy x = true ↔ ∃ s, x = Some s ∧ s ≠ "".
Proof.
  split.
  - destruct x as [[|a s]|]; try discriminate.
    intros _. eexists. split; [reflexivity | discriminate].
  - intros (s & -> & Hs). destruct s; [by destruct Hs | reflexivity].
Qed.

Lemma truthy_optional_dict (x : option dict) :
  truthy x = true ↔ ∃ d, x = Some d ∧ d ≠ ∅.
Proof.
  split.
  - destruct x as [d|]; [|discriminate]. intros Hd. exists d. split; [done|].
    intros ->. vm_compute in Hd. discriminate Hd.
  - intros (d & -> & Hd). change (negb (Nat.eqb (size d) 0) = true).
    destruct (size d) eqn:Hsize; [|reflexivity].
    by apply map_size_empty_iff in Hsize.
Qed.

(** C10. In both clients, [scrape] called with [formats=[]] sends
    ["markdown"] as the [formats] value, exactly as when [formats] is left
    out, and [crawl] called with [scrape_formats=[]] sends ["markdown"] as
    [scrapeOptions.formats], exactly as when [scrape_formats] is left
    out. *)
Theorem empty_formats_take_the_default
    (u : string) (it et : option (list string)) (h : option dict) (w t : Z)
    (es : option dict) (esp ep : option string)
    (cu : string) (xp ip : option (list string)) (md : Z) (ig : bool) (l : Z)
    (ab ae : bool) (wh : option string) (sh : option dict)
    (sit set : option (list string)) (sw : Z) :
  FirecrawlClient.scrape_payload u (Some []) it et h w t es esp ep !! "formats"
    = Some (VList [VStr "markdown"]) ∧
  FirecrawlClient.scrape_payload u None it et h w t es esp ep !! "formats"
    = Some (VList [VStr "markdown"]) ∧
  AsyncFirecrawlClient.scrape_payload u (Some []) it et h w t es esp ep !! "formats"
    = Some (VList [VStr "markdown"]) ∧
  AsyncFirecrawlClient.scrape_payload u None it et h w t es esp ep !! "formats"
    = Some (VList [VStr "markdown"]) ∧
  (∃ so : dict,
      FirecrawlClient.crawl_payload cu xp ip md ig l ab ae wh (Some []) sh sit set sw
        !! "scrapeOptions" = Some (VDict so) ∧
      so !! "formats" = Some (VList [VStr "markdown"])) ∧
  (∃ so : dict,
      FirecrawlClient.crawl_payload cu xp ip md ig l ab ae wh None sh sit set sw
        !! "scrapeOptions" = Some (VDict so) ∧
      so !! "formats" = Some (VList [VStr "markdown"])) ∧
  (∃ so : dict,
      AsyncFirecrawlClient.crawl_payload cu xp ip md ig l ab ae wh (Some []) sh sit set sw
        !! "scrapeOptions" = Some (VDict so) ∧
      so !! "formats" = Some (VList [VStr "markdown"])) ∧
  (∃ so : dict,
      AsyncFirecrawlClient.crawl_payload cu xp ip md ig l ab ae wh None sh sit set sw
        !! "scrapeOptions" = Some (VDict so) ∧
      so !! "formats" = Some (VList [VStr "markdown"])).
Proof.
  change AsyncFirecrawlClient.scrape_payload with FirecrawlClient.scrape_payload.
  change AsyncFirecrawlClient.crawl_payload with FirecrawlClient.crawl_payload.
  pose proof (scrape_payload_required u (Some []) it et h w t es esp ep)
    as (_ & Hempty & _).
  pose proof (scrape_payload_required u None it et h w t es esp ep)
    as (_ & Hnone & _).
  destruct (crawl_scrape_options cu xp ip md ig l ab ae wh (Some []) sh sit set sw)
    as (so1 & Hso1 & Hf1 & _).
  destruct (crawl_scrape_options cu xp ip md ig l ab ae wh None sh sit set sw)
    as (so2 & Hso2 & Hf2 & _).
  repeat split; try assumption; eauto.
Qed.

(** C5, as claimed, fails: [extract_prompt] is provided here (as the empty
    string), and the payload has no [extract] key. *)
Lemma scrape_extract_absent_for_empty_prompt :
  FirecrawlClient.scrape_payload "https://example.com"
    None None None None 0 30000 None None (Some "") !! "extract" = None.
Proof. vm_compute. reflexivity. Qed.

(** C5, amended. In the payload built by [scrape] (of either client) the
    [extract] sub-object is included if and only if at least one of
    [extract_schema], [extract_system_prompt], [extract_prompt] is provided
    with a non-empty value; when none of the three is provided the payload
    has no [extract] key. *)
Theorem scrape_extract_iff_nonempty
    (u : string) (f it et : option (list string)) (h : option dict) (w t : Z)
    (es : option dict) (esp ep : option string) :
  (is_Some (FirecrawlClient.scrape_payload u f it et h w t es esp ep !! "extract")
   ↔ (∃ d, es = Some d ∧ d ≠ ∅) ∨
     (∃ s, esp = Some s ∧ s ≠ "") ∨
     (∃ s, ep = Some s ∧ s ≠ "")) ∧
  (is_Some (AsyncFirecrawlClient.scrape_payload u f it et h w t es esp ep !! "extract")
   ↔ (∃ d, es = Some d ∧ d ≠ ∅) ∨
     (∃ s, esp = Some s ∧ s ≠ "") ∨
     (∃ s, ep = Some s ∧ s ≠ "")) ∧
  FirecrawlClient.scrape_payload u f it et h w t None None None !! "extract"
    = None ∧
  AsyncFirecrawlClient.scrape_payload u f it et h w t None None None !! "extract"
    = None.
Proof.
  change AsyncFirecrawlClient.scrape_payload with FirecrawlClient.scrape_payload.
  assert (Hiff :
    is_Some (FirecrawlClient.scrape_payload u f it et h w t es esp ep !! "extract")
    ↔ (∃ d, es = Some d ∧ d ≠ ∅) ∨
      (∃ s, esp = Some s ∧ s ≠ "") ∨
      (∃ s, ep = Some s ∧ s ≠ "")).
  { rewrite scrape_payload_extract.
    rewrite <- truthy_optional_dict, <- !truthy_optional_str.
    destruct (truthy es), (truthy esp), (truthy ep); cbn;
      (split; [intros Hsome; try tauto; now destruct Hsome
              |intros Hany; try (now eexists); now destruct Hany as [|[|]]]). }
  repeat split; try apply Hiff; apply scrape_payload_extract.
Qed.

(** C6. Every payload built by [crawl] (of either client) has a
    [scrapeOptions] dictionary with [formats] (the argument, or
    ["markdown"] by default) and [waitFor]; [scrapeOptions] has the key
    [headers], [includeTags], [excludeTags] exactly when [scrape_headers],
    [scrape_include_tags], [scrape_exclude_tags] is supplied, with the
    supplied value; and [scrape_headers={"X-A": "1"}] is found at
    [scrapeOptions.headers]. *)
Theorem crawl_scrape_options_nested
    (u : string) (xp ip : option (list string)) (md : Z) (ig : bool) (l : Z)
    (ab ae : bool) (wh : option string) (sf : option (list string))
    (sh : option dict) (sit set : option (list string)) (sw : Z) :
  (∃ so : dict,
      FirecrawlClient.crawl_payload u xp ip md ig l ab ae wh sf sh sit set sw
        !! "scrapeOptions" = Some (VDict so) ∧
      so !! "formats" = Some (of_strs (py_or sf ["markdown"])) ∧
      so !! "waitFor" = Some (VInt sw) ∧
      so !! "headers" = VDict <$> sh ∧
      so !! "includeTags" = of_strs <$> sit ∧
      so !! "excludeTags" = of_strs <$> set) ∧
  (∃ so : dict,
      AsyncFirecrawlClient.crawl_payload u xp ip md ig l ab ae wh sf sh sit set sw
        !! "scrapeOptions" = Some (VDict so) ∧
      so !! "formats" = Some (of_strs (py_or sf ["markdown"])) ∧
      so !! "waitFor" = Some (VInt sw) ∧
      so !! "headers" = VDict <$> sh ∧
      so !! "includeTags" = of_strs <$> sit ∧
      so !! "excludeTags" = of_strs <$> set) ∧
  (∃ so : dict,
      FirecrawlClient.crawl_payload u xp ip md ig l ab ae wh None sh sit set sw
        !! "scrapeOptions" = Some (VDict so) ∧
      so !! "formats" = Some (VList [VStr "markdown"])) ∧
  (∃ so : dict,
      FirecrawlClient.crawl_payload u xp ip md ig l ab ae wh sf
        (Some {[ "X-A" := VStr "1" ]}) sit set sw
        !! "scrapeOptions" = Some (VDict so) ∧
      so !! "headers" = Some (VDict {[ "X-A" := VStr "1" ]})) ∧
  (∃ so : dict,
      AsyncFirecrawlClient.crawl_payload u xp ip md ig l ab ae wh sf
        (Some {[ "X-A" := VStr "1" ]}) sit set sw
        !! "scrapeOptions" = Some (VDict so) ∧
      so !! "headers" = Some (VDict {[ "X-A" := VStr "1" ]})).
Proof.
  change AsyncFirecrawlClient.crawl_payload with FirecrawlClient.crawl_payload.
  destruct (crawl_scrape_options u xp ip md ig l ab ae wh sf sh sit set sw)
    as (so & Hso & Hf & Hw & Hh & Hit & Het & _).
  destruct (crawl_scrape_options u xp ip md ig l ab ae wh None sh sit set sw)
    as (so' & Hso' & Hf' & _).
  destruct (crawl_scrape_options u xp ip md ig l ab ae wh sf
              (Some {[ "X-A" := VStr "1" ]}) sit set sw)
    as (so'' & Hso'' & _ & _ & Hh'' & _).
  repeat split; eauto 10.
Qed.

(** C1, as claimed, fails: [extract_schema] and [extract_system_prompt]
    are left unset here, and the payload carries them, with the value
    [None] (JSON [null]), under [extract]. *)
Lemma scrape_unset_extract_fields_sent_as_null :
  FirecrawlClient.scrape_payload "https://example.com"
    None None None None 0 30000 None None (Some "Summarise the page")
    !! "extract" =
  Some (VDict {[ "schema" := VNone;
                 "systemPrompt" := VNone;
                 "prompt" := VStr "Summarise the page" ]}).
Proof. vm_compute. reflexivity. Qed.

(** C1, amended. For every operation of either client and every choice of
    arguments: each of [include_tags], [exclude_tags], [headers] ([scrape]),
    [exclude_paths], [include_paths], [webhook] ([crawl]) and [search]
    ([map]) has its key in the payload exactly when it is set, and each of
    [scrape_headers], [scrape_include_tags], [scrape_exclude_tags] has its
    key in [scrapeOptions] exactly when it is set; no key of a payload, and
    no key of [scrapeOptions], has the value [None]; when none of the three
    [extract_*] parameters is set there is no [extract] key;
    [get_crawl_status] and [cancel_crawl] send no payload.  The [extract]
    sub-object, when it is sent, always has the three keys [schema],
    [systemPrompt] and [prompt], an unset parameter being sent as [None]. *)
Theorem unset_optionals_are_omitted
    (u : string) (f it et : option (list string)) (h : option dict) (w t : Z)
    (es : option dict) (esp ep : option string)
    (cu : string) (xp ip : option (list string)) (md : Z) (cig : bool)
    (cl : Z) (ab ae : bool) (wh : option string) (sf : option (list string))
    (sh : option dict) (sit set : option (list string)) (sw : Z)
    (mu : string) (q : option string) (mig isd : bool) (ml : Z)
    (self : FirecrawlClient.t) (aself : AsyncFirecrawlClient.t)
    (job_id : string) :
  (FirecrawlClient.scrape_payload u f it et h w t es esp ep !! "includeTags"
     = of_strs <$> it ∧
   FirecrawlClient.scrape_payload u f it et h w t es esp ep !! "excludeTags"
     = of_strs <$> et ∧
   FirecrawlClient.scrape_payload u f it et h w t es esp ep !! "headers"
     = VDict <$> h ∧
   FirecrawlClient.scrape_payload u f it et h w t None None None !! "extract"
     = None ∧
   (FirecrawlClient.scrape_payload u f it et h w t es esp ep !! "extract"
      = None ∨
    FirecrawlClient.scrape_payload u f it et h w t es esp ep !! "extract"
      = Some (VDict {[ "schema" := of_optional VDict es;
                       "systemPrompt" := of_optional VStr esp;
                       "prompt" := of_optional VStr ep ]})) ∧
   no_null (FirecrawlClient.scrape_payload u f it et h w t es esp ep)) ∧
  (FirecrawlClient.crawl_payload cu xp ip md cig cl ab ae wh sf sh sit set sw
     !! "excludePaths" = of_strs <$> xp ∧
   FirecrawlClient.crawl_payload cu xp ip md cig cl ab ae wh sf sh sit set sw
     !! "includePaths" = of_strs <$> ip ∧
   FirecrawlClient.crawl_payload cu xp ip md cig cl ab ae wh sf sh sit set sw
     !! "webhook" = VStr <$> wh ∧
   (∃ so : dict,
       FirecrawlClient.crawl_payload cu xp ip md cig cl ab ae wh sf sh sit set sw
         !! "scrapeOptions" = Some (VDict so) ∧
       so !! "headers" = VDict <$> sh ∧
       so !! "includeTags" = of_strs <$> sit ∧
       so !! "excludeTags" = of_strs <$> set ∧
       no_null so) ∧
   no_null
     (FirecrawlClient.crawl_payload cu xp ip md cig cl ab ae wh sf sh sit set sw)) ∧
  (FirecrawlClient.map_payload mu q mig isd ml !! "search" = VStr <$> q ∧
   no_null (FirecrawlClient.map_payload mu q mig isd ml)) ∧
  (json_body (FirecrawlClient.get_crawl_status_request self job_id) = None ∧
   json_body (FirecrawlClient.cancel_crawl_request self job_id) = None ∧
   json_body (AsyncFirecrawlClient.get_crawl_status_request aself job_id) = None ∧
   json_body (AsyncFirecrawlClient.cancel_crawl_request aself job_id) = None) ∧
  (AsyncFirecrawlClient.scrape_payload u f it et h w t es esp ep
     = FirecrawlClient.scrape_payload u f it et h w t es esp ep ∧
   AsyncFirecrawlClient.crawl_payload cu xp ip md cig cl ab ae wh sf sh sit set sw
     = FirecrawlClient.crawl_payload cu xp ip md cig cl ab ae wh sf sh sit set sw ∧
   AsyncFirecrawlClient.map_payload mu q mig isd ml
     = FirecrawlClient.map_payload mu q mig isd ml).
Proof.
  split; [|split; [|split; [|split]]].
  - pose proof (scrape_payload_optional u f it et h w t es esp ep)
      as (Hit & Het & Hh).
    repeat split; try assumption.
    + apply scrape_payload_extract.
    + rewrite scrape_payload_extract.
      destruct (truthy es || truthy esp || truthy ep); [now right | now left].
    + apply scrape_payload_no_null.
  - pose proof (crawl_payload_optional cu xp ip md cig cl ab ae wh sf sh sit set sw)
      as (Hxp & Hip & Hwh).
    destruct (crawl_scrape_options cu xp ip md cig cl ab ae wh sf sh sit set sw)
      as (so & Hso & _ & _ & Hsh & Hsit & Hset & Hnull).
    repeat split; try assumption.
    + exists so. repeat split; assumption.
    + apply crawl_payload_no_null.
  - split; [apply map_payload_optional | apply map_payload_no_null].
  - repeat split.
  - repeat split.
Qed.

(** ** The two clients *)

(** Handed the same response objects, the two clients are the same program:
    they are constructed alike (same stripped base URL, or the same
    failure), issue the same request (method, URL and JSON payload) and,
    over one and the same transport, return the same typed result or raise
    the same exception. *)
Theorem sync_async_equivalent `{PydanticCore}
    (transport : Request → result Response) (b : string) :
  match FirecrawlClient.__init__ b, AsyncFirecrawlClient.__init__ b with
  | Ok s, Ok a => FirecrawlClient.base_url s = AsyncFirecrawlClient.base_url a
  | Raise e, Raise e' => e = e'
  | _, _ => False
  end ∧
  (∀ u f it et h w t es esp ep,
      FirecrawlClient.scrape_request (FirecrawlClient.Build_t b)
        u f it et h w t es esp ep =
      AsyncFirecrawlClient.scrape_request (AsyncFirecrawlClient.Build_t b)
        u f it et h w t es esp ep) ∧
  (∀ u xp ip md ig l ab ae wh sf sh sit set sw,
      FirecrawlClient.crawl_request (FirecrawlClient.Build_t b)
        u xp ip md ig l ab ae wh sf sh sit set sw =
      AsyncFirecrawlClient.crawl_request (AsyncFirecrawlClient.Build_t b)
        u xp ip md ig l ab ae wh sf sh sit set sw) ∧
  (∀ job_id,
      FirecrawlClient.get_crawl_status_request (FirecrawlClient.Build_t b) job_id =
      AsyncFirecrawlClient.get_crawl_status_request
        (AsyncFirecrawlClient.Build_t b) job_id) ∧
  (∀ job_id,
      FirecrawlClient.cancel_crawl_request (FirecrawlClient.Build_t b) job_id =
      AsyncFirecrawlClient.cancel_crawl_request
        (AsyncFirecrawlClient.Build_t b) job_id) ∧
  (∀ u q ig isd l,
      FirecrawlClient.map_request (FirecrawlClient.Build_t b) u q ig isd l =
      AsyncFirecrawlClient.map_request (AsyncFirecrawlClient.Build_t b)
        u q ig isd l) ∧
  (∀ u f it et h w t es esp ep,
      FirecrawlClient.scrape transport (FirecrawlClient.Build_t b)
        u f it et h w t es esp ep =
      AsyncFirecrawlClient.scrape transport (AsyncFirecrawlClient.Build_t b)
        u f it et h w t es esp ep) ∧
  (∀ u xp ip md ig l ab ae wh sf sh sit set sw,
      FirecrawlClient.crawl transport (FirecrawlClient.Build_t b)
        u xp ip md ig l ab ae wh sf sh sit set sw =
      AsyncFirecrawlClient.crawl transport (AsyncFirecrawlClient.Build_t b)
        u xp ip md ig l ab ae wh sf sh sit set sw) ∧
  (∀ job_id,
      FirecrawlClient.get_crawl_status transport (FirecrawlClient.Build_t b) job_id =
      AsyncFirecrawlClient.get_crawl_status transport
        (AsyncFirecrawlClient.Build_t b) job_id) ∧
  (∀ job_id,
      FirecrawlClient.cancel_crawl transport (FirecrawlClient.Build_t b) job_id =
      AsyncFirecrawlClient.cancel_crawl transport
        (AsyncFirecrawlClient.Build_t b) job_id) ∧
  (∀ u q ig isd l,
      FirecrawlClient.map transport (FirecrawlClient.Build_t b) u q ig isd l =
      AsyncFirecrawlClient.map transport (AsyncFirecrawlClient.Build_t b)
        u q ig isd l).
Proof.
  split.
  - unfold FirecrawlClient.__init__, AsyncFirecrawlClient.__init__.
    destruct (negb (truthy b)); reflexivity.
  - repeat split.
Qed.





(** ** Responses *)

Lemma optional_insert_ne {A} (validate : pyvalue → option A)
    (key k : string) (v : pyvalue) (d : dict) :
  k ≠ key → optional validate key (<[k := v]> d) = optional validate key d.
Proof. intros Hk. unfold optional. now rewrite lookup_insert_ne. Qed.

Lemma required_insert_ne {A} (validate : pyvalue → option A)
    (key k : string) (v : pyvalue) (d : dict) :
  k ≠ key → required validate key (<[k := v]> d) = required validate key d.
Proof. intros Hk. unfold required. now rewrite lookup_insert_ne. Qed.

(** Adding an undeclared key changes nothing but the extra fields. *)
Lemma metadata_validate_fields_insert `{PydanticCore}
    (d : dict) (k : string) (v : pyvalue) :
  k ∉ Metadata.model_fields →
  Metadata.validate_fields (<[k := v]> d) =
  (λ m, {| Metadata.title := Metadata.title m;
           Metadata.description := Metadata.description m;
           Metadata.language := Metadata.language m;
           Metadata.sourceURL := Metadata.sourceURL m;
           Metadata.statusCode := Metadata.statusCode m;
           Metadata.error := Metadata.error m;
           Metadata.model_extra :=
             filter (λ kv, kv.1 ∉ Metadata.model_fields) (<[k := v]> d) |})
    <$> Metadata.validate_fields d.
Proof.
  intros Hk.
  assert (Hne : ∀ key, key ∈ Metadata.model_fields → k ≠ key)
    by (intros key Hkey ->; exact (Hk Hkey)).
  unfold Metadata.validate_fields.
  rewrite !optional_insert_ne, !required_insert_ne
    by (apply Hne; repeat constructor).
  destruct (optional validate_str "title" d); [cbn|reflexivity].
  destruct (optional validate_str "description" d); [cbn|reflexivity].
  destruct (optional validate_str "language" d); [cbn|reflexivity].
  destruct (required validate_http_url "sourceURL" d); [cbn|reflexivity].
  destruct (required validate_int "statusCode" d); [cbn|reflexivity].
  destruct (optional validate_str "error" d); reflexivity.
Qed.

(** C9. If a dictionary validates as [Metadata], then so does the
    dictionary with any undeclared field added (for example ["ogImage"]);
    the resulting [Metadata] keeps that field with its value among its
    extra fields, and its declared fields are unchanged. *)
Theorem metadata_extra_field_preserved `{PydanticCore}
    (d : dict) (m : Metadata.t) (k : string) (v : pyvalue) :
  k ∉ Metadata.model_fields →
  Metadata.model_validate (VDict d) = Ok m →
  ∃ m' : Metadata.t,
    Metadata.model_validate (VDict (<[k := v]> d)) = Ok m' ∧
    Metadata.model_extra m' !! k = Some v ∧
    Metadata.title m' = Metadata.title m ∧
    Metadata.description m' = Metadata.description m ∧
    Metadata.language m' = Metadata.language m ∧
    Metadata.sourceURL m' = Metadata.sourceURL m ∧
    Metadata.statusCode m' = Metadata.statusCode m ∧
    Metadata.error m' = Metadata.error m.
Proof.
  intros Hk Hm.
  unfold Metadata.model_validate, model_validate_with, Metadata.validate in *.
  rewrite (metadata_validate_fields_insert d k v Hk).
  destruct (Metadata.validate_fields d) as [m0|]; [|discriminate].
  cbn in Hm. injection Hm as ->.
  eexists. split; [reflexivity|]. cbn. repeat split.
  apply map_lookup_filter_Some_2; [apply lookup_insert_eq | exact Hk].
Qed.

Lemma metadata_extra_field_preserved_witness :
  ("ogImage" ∉ Metadata.model_fields) ∧
  ∃ m : @Metadata.t strict_core,
    @Metadata.model_validate strict_core
      (VDict (<["ogImage" := VStr "https://example.com/og.png"]>
                {[ "sourceURL" := VStr "https://example.com";
                   "statusCode" := VInt 200 ]})) = Ok m ∧
    Metadata.model_extra m !! "ogImage"
      = Some (VStr "https://example.com/og.png").
Proof.
  assert (Hk : "ogImage" ∉ Metadata.model_fields).
  { intros Hin. vm_compute in Hin.
    repeat (apply elem_of_cons in Hin as [Hin|Hin]; [discriminate|]).
    now apply elem_of_nil in Hin. }
  split; [exact Hk|].
  destruct (@metadata_extra_field_preserved strict_core
              {[ "sourceURL" := VStr "https://example.com";
                 "statusCode" := VInt 200 ]}
              {| Metadata.title := None; Metadata.description := None;
                 Metadata.language := None;
                 Metadata.sourceURL := "https://example.com" : @HttpUrl strict_core;
                 Metadata.statusCode := 200; Metadata.error := None;
                 Metadata.model_extra := ∅ |}
              "ogImage" (VStr "https://example.com/og.png") Hk)
    as (m' & Hm' & Hextra & _).
  - vm_compute. reflexivity.
  - exists m'. split; [exact Hm' | exact Hextra].
Defined.



(** C2. [scrape("https://example.com")], every other argument left at its
    default, posts to [/scrape] the JSON body
    [{"url": "https://example.com", "formats": ["markdown"], "waitFor": 0,
    "timeout": 30000}]; and when the server answers that request with a
    2xx response whose body is
    [{"data": {"markdown": "# Hi", "metadata": {"sourceURL":
    "https://example.com", "statusCode": 200}}}], the call returns a
    [ScrapeResult] whose [markdown] is ["# Hi"] (given that
    ["https://example.com"] is a URL pydantic accepts). *)
Theorem scrape_example `{PydanticCore}
    (session : Request → result Response) (self : FirecrawlClient.t)
    (resp : Response) :
  is_Some (validate_http_url (VStr "https://example.com")) →
  session {| method := POST;
             url := FirecrawlClient.base_url self +:+ "/scrape";
             json_body := Some {[ "url" := VStr "https://example.com";
                                  "formats" := VList [VStr "markdown"];
                                  "waitFor" := VInt 0;
                                  "timeout" := VInt 30000 ]} |} = Ok resp →
  200 ≤ status_code resp ≤ 299 →
  json resp =
    Ok (VDict {[ "data" := VDict
         {[ "markdown" := VStr "# Hi";
            "metadata" := VDict
              {[ "sourceURL" := VStr "https://example.com";
                 "statusCode" := VInt 200 ]} ]} ]}) →
  FirecrawlClient.scrape_request self "https://example.com"
      None None None None 0 30000 None None None
    = {| method := POST;
         url := FirecrawlClient.base_url self +:+ "/scrape";
         json_body := Some {[ "url" := VStr "https://example.com";
                              "formats" := VList [VStr "markdown"];
                              "waitFor" := VInt 0;
                              "timeout" := VInt 30000 ]} |} ∧
  ∃ r : ScrapeResult.t,
    FirecrawlClient.scrape_defaults session self "https://example.com" = Ok r ∧
    ScrapeResult.markdown r = Some "# Hi".
Proof.
  intros [src Hurl] Hsend Hstatus Hjson.
  split; [reflexivity|].
  unfold FirecrawlClient.scrape_defaults, FirecrawlClient.scrape.
  change (FirecrawlClient.scrape_request self "https://example.com"
            None None None None 0 30000 None None None)
    with {| method := POST;
            url := FirecrawlClient.base_url self +:+ "/scrape";
            json_body := Some {[ "url" := VStr "https://example.com";
                                 "formats" := VList [VStr "markdown"];
                                 "waitFor" := VInt 0;
                                 "timeout" := VInt 30000 ]} |}.
  rewrite Hsend. cbn.
  rewrite (raise_for_status_2xx resp Hstatus). cbn.
  rewrite Hjson. cbn.
  rewrite lookup_singleton_eq. cbn.
  unfold ScrapeResult.model_validate, model_validate_with,
    ScrapeResult.validate, ScrapeResult.validate_fields, optional, required.
  rewrite lookup_insert_eq.
  repeat rewrite lookup_insert_ne by discriminate.
  rewrite lookup_singleton_eq.
  repeat rewrite lookup_singleton_ne by discriminate.
  rewrite validate_str_exact. cbn.
  unfold Metadata.validate_fields, optional, required.
  rewrite lookup_insert_eq.
  repeat rewrite lookup_insert_ne by discriminate.
  rewrite lookup_singleton_eq.
  repeat rewrite lookup_singleton_ne by discriminate.
  cbn. rewrite Hurl. cbn. rewrite validate_int_exact. cbn.
  eexists. split; reflexivity.
Qed.

Lemma scrape_example_witness :
  ∃ r : @ScrapeResult.t strict_core,
    @FirecrawlClient.scrape_defaults strict_core
      (λ _, Ok (ok_response (VDict {[ "data" := VDict
         {[ "markdown" := VStr "# Hi";
            "metadata" := VDict
              {[ "sourceURL" := VStr "https://example.com";
                 "statusCode" := VInt 200 ]} ]} ]})))
      (FirecrawlClient.Build_t "https://api.firecrawl.dev/v1")
      "https://example.com" = Ok r ∧
    ScrapeResult.markdown r = Some "# Hi".
Proof.
  pose proof (@scrape_example strict_core
           (λ _, Ok (ok_response (VDict {[ "data" := VDict
              {[ "markdown" := VStr "# Hi";
                 "metadata" := VDict
                   {[ "sourceURL" := VStr "https://example.com";
                      "statusCode" := VInt 200 ]} ]} ]})))
           (FirecrawlClient.Build_t "https://api.firecrawl.dev/v1")
           (ok_response (VDict {[ "data" := VDict
              {[ "markdown" := VStr "# Hi";
                 "metadata" := VDict
                   {[ "sourceURL" := VStr "https://example.com";
                      "statusCode" := VInt 200 ]} ]} ]}))) as Hexample.
  assert (Hurl : is_Some (@validate_http_url strict_core
                            (VStr "https://example.com")))
    by (eexists; reflexivity).
  assert (Hstatus : 200 ≤ status_code (ok_response VNone) ≤ 299)
    by (simpl; lia).
  exact (proj2 (Hexample Hurl eq_refl Hstatus eq_refl)).
Defined.


(** ** Further checks on concrete inputs *)

Example rstrip_strips_every_trailing_slash :
  rstrip "/" "https://api.firecrawl.dev/v1///" = "https://api.firecrawl.dev/v1".
Proof. reflexivity. Qed.

Example init_rejects_empty_base_url :
  FirecrawlClient.__init__ "" = Raise ValueError ∧
  AsyncFirecrawlClient.__init__ "" = Raise ValueError.
Proof. split; reflexivity. Qed.

Example crawl_state_bogus_fails :
  CrawlState.validate (VStr "bogus") = None.
Proof. reflexivity. Qed.

Example crawl_status_bogus_fails :
  @CrawlStatus.model_validate strict_core
    (VDict {[ "status" := VStr "bogus"; "total" := VInt 1;
              "completed" := VInt 0;
              "expiresAt" := VStr "2025-01-01T00:00:00Z";
              "data" := VList [] ]})
  = Raise ValidationError.
Proof. vm_compute. reflexivity. Qed.

Example crawl_status_scraping_validates :
  CrawlStatus.status <$>
    @CrawlStatus.validate strict_core
      (VDict {[ "status" := VStr "scraping"; "total" := VInt 1;
                "completed" := VInt 0;
                "expiresAt" := VStr "2025-01-01T00:00:00Z";
                "data" := VList [] ]})
  = Some CrawlState.SCRAPING.
Proof. vm_compute. reflexivity. Qed.

Example map_payload_defaults :
  FirecrawlClient.map_payload "https://example.com" None true false 5000 =
  {[ "url" := VStr "https://example.com";
     "ignoreSitemap" := VBool true;
     "includeSubdomains" := VBool false;
     "limit" := VInt 5000 ]}.
Proof. reflexivity. Qed.

Example crawl_payload_with_headers :
  FirecrawlClient.crawl_payload "https://example.com" None None 2 true 10
    false false None None (Some {[ "X-A" := VStr "1" ]}) None None 123
    !! "scrapeOptions" =
  Some (VDict {[ "formats" := VList [VStr "markdown"];
                 "waitFor" := VInt 123;
                 "headers" := VDict {[ "X-A" := VStr "1" ]} ]}).
Proof. vm_compute. reflexivity. Qed.

(** * Further properties *)

(** ** Construction *)

Lemma char_in_slash (a : Ascii.ascii) :
  char_in a "/" = true ↔ String a "" = "/".
Proof.
  cbn. destruct (Ascii.eqb_spec a (Ascii.Ascii true true true true false true false false))
    as [->|Ha].
  - now split.
  - split; [discriminate|]. intros [= Heq]. contradiction.
Qed.

Lemma rstrip_decompose (s : string) :
  ∃ t : string,
    s = rstrip "/" s +:+ t ∧
    Forall (λ a, String a "" = "/") (String.list_ascii_of_string t).
Proof.
  induction s as [|a s (t & Hs & Ht)].
  - exists "". split; [reflexivity | constructor].
  - cbn [rstrip]. destruct (rstrip "/" s) as [|b r] eqn:Hr.
    + destruct (char_in a "/") eqn:Ha.
      * apply char_in_slash in Ha.
        exists (String a t). cbn in Hs. subst s.
        split; [reflexivity | now constructor].
      * exists t. cbn in Hs |- *. now subst s.
    + exists t. split; [|exact Ht]. cbn. now rewrite Hs at 1.
Qed.

Lemma append_slash_nonempty (p : string) : p +:+ "/" ≠ "".
Proof. now destruct p. Qed.

Lemma rstrip_no_trailing_slash (s p : string) :
  rstrip "/" s ≠ p +:+ "/".
Proof.
  revert p. induction s as [|a s IH]; intros p.
  - intros Heq. symmetry in Heq. now apply append_slash_nonempty in Heq.
  - cbn [rstrip]. destruct (rstrip "/" s) as [|b r] eqn:Hr.
    + destruct (char_in a "/") eqn:Ha.
      * intros Heq. symmetry in Heq. now apply append_slash_nonempty in Heq.
      * destruct p as [|c p]; cbn; intros Heq.
        -- apply char_in_slash in Heq. congruence.
        -- injection Heq as _ Hrest. symmetry in Hrest.
           now apply append_slash_nonempty in Hrest.
    + destruct p as [|c p]; cbn; intros Heq.
      * discriminate Heq.
      * injection Heq as _ Hrest. exact (IH p Hrest).
Qed.

Lemma rstrip_fixed (s : string) :
  (∀ p, s ≠ p +:+ "/") → rstrip "/" s = s.
Proof.
  induction s as [|a s IH]; intros Hs; [reflexivity|].
  cbn [rstrip]. rewrite IH.
  - destruct s as [|b s]; [|reflexivity].
    destruct (char_in a "/") eqn:Ha; [|reflexivity].
    apply char_in_slash in Ha as [= ->]. now destruct (Hs "").
  - intros p ->. now apply (Hs (String a p)).
Qed.

Lemma rstrip_all_slashes (s : string) :
  Forall (λ a, String a "" = "/") (String.list_ascii_of_string s) → rstrip "/" s = "".
Proof.
  induction s as [|a s IH]; [reflexivity|].
  cbn. intros Hall. apply Forall_cons_1 in Hall as [[= ->] Hall].
  now rewrite (IH Hall).
Qed.

(** X1. The constructor of either client raises [ValueError] exactly on the
    empty base URL.  On any other base URL it succeeds, and the base URL it
    stores is the argument without its trailing slashes: the argument is
    the stored URL followed by slashes only, and the stored URL does not
    end in a slash. *)
Theorem init_strips_exactly_the_trailing_slashes (b : string) :
  match FirecrawlClient.__init__ b with
  | Raise e => b = "" ∧ e = ValueError
  | Ok c =>
      b ≠ "" ∧
      (∃ t, b = FirecrawlClient.base_url c +:+ t ∧
            Forall (λ a, String a "" = "/") (String.list_ascii_of_string t)) ∧
      (∀ p, FirecrawlClient.base_url c ≠ p +:+ "/")
  end ∧
  match AsyncFirecrawlClient.__init__ b with
  | Raise e => b = "" ∧ e = ValueError
  | Ok c =>
      b ≠ "" ∧
      (∃ t, b = AsyncFirecrawlClient.base_url c +:+ t ∧
            Forall (λ a, String a "" = "/") (String.list_ascii_of_string t)) ∧
      (∀ p, AsyncFirecrawlClient.base_url c ≠ p +:+ "/")
  end.
Proof.
  unfold FirecrawlClient.__init__, AsyncFirecrawlClient.__init__.
  destruct b as [|a b]; cbn [truthy truthy_str negb].
  - now repeat split.
  - cbn [FirecrawlClient.base_url AsyncFirecrawlClient.base_url].
    repeat split; try discriminate;
      first [apply rstrip_decompose | apply rstrip_no_trailing_slash].
Qed.

(** X2. Constructing a client from the base URL an existing client stores
    gives the same client again, unless that stored URL is empty. *)
Theorem init_idempotent (b : string)
    (c : FirecrawlClient.t) (ac : AsyncFirecrawlClient.t) :
  FirecrawlClient.__init__ b = Ok c →
  AsyncFirecrawlClient.__init__ b = Ok ac →
  FirecrawlClient.base_url c ≠ "" →
  FirecrawlClient.__init__ (FirecrawlClient.base_url c) = Ok c ∧
  AsyncFirecrawlClient.__init__ (AsyncFirecrawlClient.base_url ac) = Ok ac.
Proof.
  unfold FirecrawlClient.__init__, AsyncFirecrawlClient.__init__.
  destruct (negb (truthy b)); [discriminate|].
  intros [= <-] [= <-] Hne. cbn in *.
  rewrite (truthy_nonempty _ Hne). cbn.
  rewrite (rstrip_fixed (rstrip "/" b)) by apply rstrip_no_trailing_slash.
  split; reflexivity.
Qed.

Lemma init_idempotent_witness :
  FirecrawlClient.__init__ "https://api.firecrawl.dev/v1"
    = Ok (FirecrawlClient.Build_t "https://api.firecrawl.dev/v1") ∧
  AsyncFirecrawlClient.__init__ "https://api.firecrawl.dev/v1"
    = Ok (AsyncFirecrawlClient.Build_t "https://api.firecrawl.dev/v1").
Proof.
  exact (init_idempotent "https://api.firecrawl.dev/v1/"
           (FirecrawlClient.Build_t "https://api.firecrawl.dev/v1")
           (AsyncFirecrawlClient.Build_t "https://api.firecrawl.dev/v1")
           eq_refl eq_refl ltac:(discriminate)).
Defined.

(** X3. The emptiness test precedes the stripping: a non-empty base URL
    made of slashes only is accepted, and the client then stores the empty
    base URL, so that its request URLs are the bare paths. *)
Theorem init_accepts_slashes_only (b : string) :
  b ≠ "" →
  Forall (λ a, String a "" = "/") (String.list_ascii_of_string b) →
  FirecrawlClient.__init__ b = Ok (FirecrawlClient.Build_t "") ∧
  AsyncFirecrawlClient.__init__ b = Ok (AsyncFirecrawlClient.Build_t "") ∧
  (∀ c u f it et h w t es esp ep,
      FirecrawlClient.__init__ b = Ok c →
      url (FirecrawlClient.scrape_request c u f it et h w t es esp ep)
        = "/scrape").
Proof.
  intros Hne Hall.
  unfold FirecrawlClient.__init__, AsyncFirecrawlClient.__init__.
  rewrite (truthy_nonempty b Hne), (rstrip_all_slashes b Hall). cbn.
  repeat split. now intros c u f it et h w t es esp ep [= <-].
Qed.

Lemma init_accepts_slashes_only_witness :
  FirecrawlClient.__init__ "//" = Ok (FirecrawlClient.Build_t "") ∧
  AsyncFirecrawlClient.__init__ "//" = Ok (AsyncFirecrawlClient.Build_t "").
Proof.
  pose proof (init_accepts_slashes_only "//") as Hslashes.
  assert (Hne : "//" ≠ "") by discriminate.
  assert (Hall : Forall (λ a, String a "" = "/") (String.list_ascii_of_string "//"))
    by (repeat constructor).
  destruct (Hslashes Hne Hall) as (Hs & Ha & _).
  split; [exact Hs | exact Ha].
Defined.

(** ** Failures of a call *)

(** X4. Whatever exception the transport raises, or [raise_for_status]
    raises on the response, or [json()] raises on its body, is the outcome
    of the call, for every operation of either client: the body is then
    never validated and no result is returned. *)
Theorem failure_propagates `{PydanticCore}
    (transport : Request → result Response) (e : exception) :
  (∀ req,
      transport req = Raise e ∨
      ∃ resp, transport req = Ok resp ∧
        (raise_for_status resp = Raise e ∨
         (raise_for_status resp = Ok () ∧ json resp = Raise e))) →
  (∀ self u f it et h w t es esp ep,
      FirecrawlClient.scrape transport self u f it et h w t es esp ep
        = Raise e) ∧
  (∀ self u xp ip md ig l ab ae wh sf sh sit set sw,
      FirecrawlClient.crawl transport self
        u xp ip md ig l ab ae wh sf sh sit set sw = Raise e) ∧
  (∀ self job_id,
      FirecrawlClient.get_crawl_status transport self job_id = Raise e) ∧
  (∀ self job_id,
      FirecrawlClient.cancel_crawl transport self job_id = Raise e) ∧
  (∀ self u q ig isd l,
      FirecrawlClient.map transport self u q ig isd l = Raise e) ∧
  (∀ self u f it et h w t es esp ep,
      AsyncFirecrawlClient.scrape transport self u f it et h w t es esp ep
        = Raise e) ∧
  (∀ self u xp ip md ig l ab ae wh sf sh sit set sw,
      AsyncFirecrawlClient.crawl transport self
        u xp ip md ig l ab ae wh sf sh sit set sw = Raise e) ∧
  (∀ self job_id,
      AsyncFirecrawlClient.get_crawl_status transport self job_id = Raise e) ∧
  (∀ self job_id,
      AsyncFirecrawlClient.cancel_crawl transport self job_id = Raise e) ∧
  (∀ self u q ig isd l,
      AsyncFirecrawlClient.map transport self u q ig isd l = Raise e).
Proof.
  intros Hfail.
  assert (Hcall : ∀ (A : Type) (req : Request) (k : pyvalue → result A),
            (resp ← transport req;
             _ ← raise_for_status resp;
             data ← json resp;
             k data) = Raise e).
  { intros A req k.
    destruct (Hfail req) as [-> | (resp & -> & [Hstatus | [Hstatus Hjson]])];
      cbn; [reflexivity | |].
    - now rewrite Hstatus.
    - now rewrite Hstatus; cbn; rewrite Hjson. }
  repeat split; intros; apply Hcall.
Qed.

Lemma failure_propagates_witness :
  @FirecrawlClient.scrape_defaults strict_core
    (λ _, Ok (server_error_response (VDict ∅)))
    (FirecrawlClient.Build_t "https://api.firecrawl.dev/v1")
    "https://example.com"
  = Raise HTTPStatusError.
Proof.
  pose proof (@failure_propagates strict_core
                (λ _, Ok (server_error_response (VDict ∅)))
                HTTPStatusError) as Hfail.
  destruct Hfail as [Hscrape _].
  - intros req. right. eexists. split; [reflexivity|]. now left.
  - apply Hscrape.
Defined.

(** X5. When the server answers with a response that passes
    [raise_for_status] and whose JSON body is not an object, [scrape]
    raises [TypeError] (from [data["data"]]), [cancel_crawl] raises
    [AttributeError] (from [data.get]), and [crawl], [get_crawl_status]
    and [map] raise [ValidationError]; in both clients. *)
Theorem non_object_body_fails `{PydanticCore}
    (transport : Request → result Response) (body : pyvalue) :
  (∀ req, ∃ resp, transport req = Ok resp ∧
                  raise_for_status resp = Ok () ∧ json resp = Ok body) →
  (∀ d, body ≠ VDict d) →
  (∀ self u f it et h w t es esp ep,
      FirecrawlClient.scrape transport self u f it et h w t es esp ep
        = Raise TypeError) ∧
  (∀ self u xp ip md ig l ab ae wh sf sh sit set sw,
      FirecrawlClient.crawl transport self
        u xp ip md ig l ab ae wh sf sh sit set sw = Raise ValidationError) ∧
  (∀ self job_id,
      FirecrawlClient.get_crawl_status transport self job_id
        = Raise ValidationError) ∧
  (∀ self job_id,
      FirecrawlClient.cancel_crawl transport self job_id
        = Raise AttributeError) ∧
  (∀ self u q ig isd l,
      FirecrawlClient.map transport self u q ig isd l
        = Raise ValidationError) ∧
  (∀ self u f it et h w t es esp ep,
      AsyncFirecrawlClient.scrape transport self u f it et h w t es esp ep
        = Raise TypeError) ∧
  (∀ self u xp ip md ig l ab ae wh sf sh sit set sw,
      AsyncFirecrawlClient.crawl transport self
        u xp ip md ig l ab ae wh sf sh sit set sw = Raise ValidationError) ∧
  (∀ self job_id,
      AsyncFirecrawlClient.get_crawl_status transport self job_id
        = Raise ValidationError) ∧
  (∀ self job_id,
      AsyncFirecrawlClient.cancel_crawl transport self job_id
        = Raise AttributeError) ∧
  (∀ self u q ig isd l,
      AsyncFirecrawlClient.map transport self u q ig isd l
        = Raise ValidationError).
Proof.
  intros Hresp Hbody.
  assert (Hcall : ∀ (A : Type) (req : Request) (k : pyvalue → result A),
            (resp ← transport req;
             _ ← raise_for_status resp;
             data ← json resp;
             k data) = k body).
  { intros A req k. destruct (Hresp req) as (resp & -> & Hstatus & Hjson).
    cbn. rewrite Hstatus. cbn. now rewrite Hjson. }
  repeat split; intros;
    (etransitivity; [apply Hcall|]);
    destruct body; try reflexivity; now destruct (Hbody d).
Qed.

Lemma non_object_body_fails_witness :
  @FirecrawlClient.map strict_core (λ _, Ok (ok_response (VList [])))
    (FirecrawlClient.Build_t "https://api.firecrawl.dev/v1")
    "https://example.com" None true false 5000
  = Raise ValidationError.
Proof.
  pose proof (@non_object_body_fails strict_core
                (λ _, Ok (ok_response (VList []))) (VList [])) as Hfail.
  destruct Hfail as (_ & _ & _ & _ & Hmap & _).
  - intros req. eexists. repeat split.
  - discriminate.
  - apply Hmap.
Defined.

(** X6. [scrape] reads the page under the key [data] of the body: when the
    body is an object without that key the call raises [KeyError], and the
    rest of the body is not looked at (even if the body is itself a valid
    page); in both clients. *)
Theorem scrape_without_data_key `{PydanticCore}
    (transport : Request → result Response) (d : dict) :
  (∀ req, ∃ resp, transport req = Ok resp ∧
                  raise_for_status resp = Ok () ∧ json resp = Ok (VDict d)) →
  d !! "data" = None →
  (∀ self u f it et h w t es esp ep,
      FirecrawlClient.scrape transport self u f it et h w t es esp ep
        = Raise KeyError) ∧
  (∀ self u f it et h w t es esp ep,
      AsyncFirecrawlClient.scrape transport self u f it et h w t es esp ep
        = Raise KeyError).
Proof.
  intros Hresp Hdata.
  split; intros;
    unfold FirecrawlClient.scrape, AsyncFirecrawlClient.scrape;
    match goal with
    | |- context [transport ?req] =>
        destruct (Hresp req) as (resp & -> & Hstatus & Hjson)
    end;
    cbn; rewrite Hstatus; cbn; rewrite Hjson; cbn; now rewrite Hdata.
Qed.

Lemma scrape_without_data_key_witness :
  @FirecrawlClient.scrape_defaults strict_core
    (λ _, Ok (ok_response (VDict
       {[ "markdown" := VStr "# Hi";
          "metadata" := VDict
            {[ "sourceURL" := VStr "https://example.com";
               "statusCode" := VInt 200 ]} ]})))
    (FirecrawlClient.Build_t "https://api.firecrawl.dev/v1")
    "https://example.com"
  = Raise KeyError.
Proof.
  pose proof (@scrape_without_data_key strict_core
                (λ _, Ok (ok_response (VDict
                   {[ "markdown" := VStr "# Hi";
                      "metadata" := VDict
                        {[ "sourceURL" := VStr "https://example.com";
                           "statusCode" := VInt 200 ]} ]})))
                {[ "markdown" := VStr "# Hi";
                   "metadata" := VDict
                     {[ "sourceURL" := VStr "https://example.com";
                        "statusCode" := VInt 200 ]} ]}) as Hfail.
  destruct Hfail as [Hscrape _].
  - intros req. eexists. repeat split.
  - vm_compute. reflexivity.
  - apply Hscrape.
Defined.

(** ** Response models *)

Lemma crawl_state_of_value_Some (s : string) (m : CrawlState.t) :
  CrawlState.of_value s = Some m → CrawlState.value m = s.
Proof.
  unfold CrawlState.of_value. intros Hfind.
  apply List.find_some in Hfind as [_ Heq].
  now apply String.eqb_eq in Heq.
Qed.

(** X7. [CrawlState] is the closed set [scraping], [completed], [failed]:
    a value validates exactly when it is one of these three strings, each
    member is found again from its own value, and a [CrawlStatus] body
    whose [status] is any other value fails validation. *)
Theorem crawl_state_closed_set `{PydanticCore} :
  (∀ obj : pyvalue,
     is_Some (CrawlState.validate obj) ↔
     obj ∈ [VStr "scraping"; VStr "completed"; VStr "failed"]) ∧
  (∀ m : CrawlState.t,
     CrawlState.validate (VStr (CrawlState.value m)) = Some m) ∧
  (∀ (d : dict) (v : pyvalue),
     d !! "status" = Some v →
     v ∉ [VStr "scraping"; VStr "completed"; VStr "failed"] →
     CrawlStatus.model_validate (VDict d) = Raise ValidationError).
Proof.
  assert (Hset : ∀ obj : pyvalue,
            is_Some (CrawlState.validate obj) ↔
            obj ∈ [VStr "scraping"; VStr "completed"; VStr "failed"]).
  { intros obj. split.
    - intros [m Hm]. destruct obj; try discriminate. cbn in Hm.
      apply crawl_state_of_value_Some in Hm as <-.
      destruct m; cbn; repeat constructor.
    - intros Hin.
      repeat (apply elem_of_cons in Hin as [->|Hin]; [now eexists|]).
      now apply elem_of_nil in Hin. }
  split; [exact Hset|]. split.
  - now intros [].
  - intros d v Hstatus Hv.
    unfold CrawlStatus.model_validate, model_validate_with,
      CrawlStatus.validate, CrawlStatus.validate_fields, required.
    rewrite Hstatus. cbn.
    destruct (CrawlState.validate v) as [m|] eqn:Hm; [|reflexivity].
    destruct Hv. apply Hset. now exists m.
Qed.

Ltac fails_on_missing H :=
  unfold model_validate_with; cbn -[lookup];
  unfold required; rewrite H; cbn -[lookup];
  repeat match goal with
    | |- context [mbind _ ?o] => destruct o; cbn -[lookup]
    end;
  reflexivity.

(** X8. A body that lacks a required field fails validation, whatever else
    it holds: [sourceURL] or [statusCode] for [Metadata]; [metadata] for
    [ScrapeResult]; [status], [total], [completed], [expiresAt] or [data]
    for [CrawlStatus]; [success], [id] or [url] for [CrawlJob]; [success]
    or [links] for [MapResult]. *)
Theorem missing_required_field_fails `{PydanticCore} (d : dict) :
  (d !! "sourceURL" = None ∨ d !! "statusCode" = None →
     Metadata.model_validate (VDict d) = Raise ValidationError) ∧
  (d !! "metadata" = None →
     ScrapeResult.model_validate (VDict d) = Raise ValidationError) ∧
  (d !! "status" = None ∨ d !! "total" = None ∨ d !! "completed" = None ∨
   d !! "expiresAt" = None ∨ d !! "data" = None →
     CrawlStatus.model_validate (VDict d) = Raise ValidationError) ∧
  (d !! "success" = None ∨ d !! "id" = None ∨ d !! "url" = None →
     CrawlJob.model_validate (VDict d) = Raise ValidationError) ∧
  (d !! "success" = None ∨ d !! "links" = None →
     MapResult.model_validate (VDict d) = Raise ValidationError).
Proof.
  repeat split.
  - intros [Hk|Hk].
    + unfold Metadata.model_validate, Metadata.validate,
        Metadata.validate_fields. fails_on_missing Hk.
    + unfold Metadata.model_validate, Metadata.validate,
        Metadata.validate_fields. fails_on_missing Hk.
  - intros Hk.
    unfold ScrapeResult.model_validate, ScrapeResult.validate,
      ScrapeResult.validate_fields. fails_on_missing Hk.
  - intros [Hk|[Hk|[Hk|[Hk|Hk]]]];
      unfold CrawlStatus.model_validate, CrawlStatus.validate,
        CrawlStatus.validate_fields; fails_on_missing Hk.
  - intros [Hk|[Hk|Hk]];
      unfold CrawlJob.model_validate, CrawlJob.validate,
        CrawlJob.validate_fields; fails_on_missing Hk.
  - intros [Hk|Hk];
      unfold MapResult.model_validate, MapResult.validate,
        MapResult.validate_fields; fails_on_missing Hk.
Qed.

Ltac key_ne Hk :=
  let Heq := fresh in
  intros Heq; apply Hk; rewrite Heq; repeat constructor.

(** X9. [ScrapeResult], [CrawlStatus], [CrawlJob] and [MapResult] ignore
    every key that is not the name (or, where one is declared, the alias)
    of one of their fields: adding, changing or removing such a key does
    not change the outcome of validation.  In particular the attribute
    names [raw_html] and [expires_at] are not read, only their aliases
    [rawHtml] and [expiresAt]. *)
Theorem undeclared_keys_are_ignored `{PydanticCore}
    (d : dict) (k : string) (v : pyvalue) :
  (k ∉ ["markdown"; "html"; "rawHtml"; "links"; "metadata";
        "llm_extraction"; "warning"] →
     ScrapeResult.model_validate (VDict (<[k := v]> d))
       = ScrapeResult.model_validate (VDict d)) ∧
  (k ∉ ["status"; "total"; "completed"; "expiresAt"; "next"; "data"] →
     CrawlStatus.model_validate (VDict (<[k := v]> d))
       = CrawlStatus.model_validate (VDict d)) ∧
  (k ∉ ["success"; "id"; "url"] →
     CrawlJob.model_validate (VDict (<[k := v]> d))
       = CrawlJob.model_validate (VDict d)) ∧
  (k ∉ ["success"; "links"] →
     MapResult.model_validate (VDict (<[k := v]> d))
       = MapResult.model_validate (VDict d)) ∧
  ScrapeResult.model_validate (VDict (<["raw_html" := v]> d))
    = ScrapeResult.model_validate (VDict d) ∧
  CrawlStatus.model_validate (VDict (<["expires_at" := v]> d))
    = CrawlStatus.model_validate (VDict d).
Proof.
  assert (Hscrape : ∀ k', k' ∉ ["markdown"; "html"; "rawHtml"; "links";
                                "metadata"; "llm_extraction"; "warning"] →
            ScrapeResult.model_validate (VDict (<[k' := v]> d))
              = ScrapeResult.model_validate (VDict d)).
  { intros k' Hk.
    unfold ScrapeResult.model_validate, model_validate_with,
      ScrapeResult.validate, ScrapeResult.validate_fields.
    now rewrite !optional_insert_ne, !required_insert_ne by key_ne Hk. }
  assert (Hstatus : ∀ k', k' ∉ ["status"; "total"; "completed"; "expiresAt";
                                "next"; "data"] →
            CrawlStatus.model_validate (VDict (<[k' := v]> d))
              = CrawlStatus.model_validate (VDict d)).
  { intros k' Hk.
    unfold CrawlStatus.model_validate, model_validate_with,
      CrawlStatus.validate, CrawlStatus.validate_fields.
    now rewrite !optional_insert_ne, !required_insert_ne by key_ne Hk. }
  repeat split.
  - apply Hscrape.
  - apply Hstatus.
  - intros Hk.
    unfold CrawlJob.model_validate, model_validate_with,
      CrawlJob.validate, CrawlJob.validate_fields.
    now rewrite !required_insert_ne by key_ne Hk.
  - intros Hk.
    unfold MapResult.model_validate, model_validate_with,
      MapResult.validate, MapResult.validate_fields.
    now rewrite !required_insert_ne by key_ne Hk.
  - apply Hscrape. intros Hin.
    repeat (apply elem_of_cons in Hin as [Hin|Hin]; [discriminate|]).
    now apply elem_of_nil in Hin.
  - apply Hstatus. intros Hin.
    repeat (apply elem_of_cons in Hin as [Hin|Hin]; [discriminate|]).
    now apply elem_of_nil in Hin.
Qed.

(** X10. The extra fields of a validated [Metadata] are exactly the keys of
    the body that are not declared fields, each with the body's value: a
    declared field never appears among the extra fields, and no undeclared
    key is lost or altered. *)
Theorem metadata_extra_is_the_undeclared_part `{PydanticCore}
    (d : dict) (m : Metadata.t) (k : string) :
  Metadata.model_validate (VDict d) = Ok m →
  Metadata.model_extra m !! k =
    if decide (k ∈ Metadata.model_fields) then None else d !! k.
Proof.
  unfold Metadata.model_validate, model_validate_with, Metadata.validate,
    Metadata.validate_fields.
  intros Hm.
  destruct (optional validate_str "title" d); [cbn in Hm|discriminate].
  destruct (optional validate_str "description" d); [cbn in Hm|discriminate].
  destruct (optional validate_str "language" d); [cbn in Hm|discriminate].
  destruct (required validate_http_url "sourceURL" d); [cbn in Hm|discriminate].
  destruct (required validate_int "statusCode" d); [cbn in Hm|discriminate].
  destruct (optional validate_str "error" d); [cbn in Hm|discriminate].
  injection Hm as <-. cbn [Metadata.model_extra].
  destruct (decide (k ∈ Metadata.model_fields)) as [Hin|Hnotin].
  - apply map_lookup_filter_None. right. intros x _ Hx. now apply Hx.
  - destruct (d !! k) as [x|] eqn:Hk.
    + now apply map_lookup_filter_Some_2.
    + apply map_lookup_filter_None. now left.
Qed.

Lemma metadata_extra_is_the_undeclared_part_witness :
  ∃ m : @Metadata.t strict_core,
    @Metadata.model_validate strict_core
      (VDict {[ "title" := VStr "Example";
                "sourceURL" := VStr "https://example.com";
                "statusCode" := VInt 200;
                "ogImage" := VStr "https://example.com/og.png" ]}) = Ok m ∧
    Metadata.model_extra m !! "title" = None ∧
    Metadata.model_extra m !! "ogImage"
      = Some (VStr "https://example.com/og.png").
Proof.
  destruct (@Metadata.model_validate strict_core
              (VDict {[ "title" := VStr "Example";
                        "sourceURL" := VStr "https://example.com";
                        "statusCode" := VInt 200;
                        "ogImage" := VStr "https://example.com/og.png" ]}))
    as [m|e] eqn:Hm; [|vm_compute in Hm; discriminate Hm].
  exists m. split; [reflexivity|].
  rewrite !(@metadata_extra_is_the_undeclared_part strict_core _ _ _ Hm).
  split; vm_compute; reflexivity.
Defined.

Lemma optional_Some_None {A} (validate : pyvalue → option A)
    (key : string) (d : dict) :
  optional validate key d = Some None ↔
  d !! key = None ∨ d !! key = Some VNone.
Proof.
  unfold optional. destruct (d !! key) as [[]|]; cbn;
    try (destruct (validate _); cbn);
    split; intros Hx; try discriminate; try tauto;
    destruct Hx as [Hx|Hx]; discriminate.
Qed.

(** X11. In a validated [ScrapeResult], each optional field ([markdown],
    [html], [raw_html], [links], [llm_extraction], [warning]) is [None]
    exactly when the body leaves out its key or gives it as [null]. *)
Theorem scrape_result_optional_fields `{PydanticCore}
    (d : dict) (r : ScrapeResult.t) :
  ScrapeResult.model_validate (VDict d) = Ok r →
  (ScrapeResult.markdown r = None ↔
     d !! "markdown" = None ∨ d !! "markdown" = Some VNone) ∧
  (ScrapeResult.html r = None ↔
     d !! "html" = None ∨ d !! "html" = Some VNone) ∧
  (ScrapeResult.raw_html r = None ↔
     d !! "rawHtml" = None ∨ d !! "rawHtml" = Some VNone) ∧
  (ScrapeResult.links r = None ↔
     d !! "links" = None ∨ d !! "links" = Some VNone) ∧
  (ScrapeResult.llm_extraction r = None ↔
     d !! "llm_extraction" = None ∨ d !! "llm_extraction" = Some VNone) ∧
  (ScrapeResult.warning r = None ↔
     d !! "warning" = None ∨ d !! "warning" = Some VNone).
Proof.
  unfold ScrapeResult.model_validate, model_validate_with,
    ScrapeResult.validate, ScrapeResult.validate_fields.
  intros Hr.
  destruct (optional validate_str "markdown" d) as [x1|] eqn:H1;
    [cbn in Hr|discriminate].
  destruct (optional validate_str "html" d) as [x2|] eqn:H2;
    [cbn in Hr|discriminate].
  destruct (optional validate_str "rawHtml" d) as [x3|] eqn:H3;
    [cbn in Hr|discriminate].
  destruct (optional (validate_list validate_str) "links" d) as [x4|] eqn:H4;
    [cbn in Hr|discriminate].
  destruct (required Metadata.validate "metadata" d) as [x5|];
    [cbn in Hr|discriminate].
  destruct (optional validate_dict "llm_extraction" d) as [x6|] eqn:H6;
    [cbn in Hr|discriminate].
  destruct (optional validate_str "warning" d) as [x7|] eqn:H7;
    [cbn in Hr|discriminate].
  injection Hr as <-. cbn.
  rewrite <- (optional_Some_None validate_str "markdown"), H1.
  rewrite <- (optional_Some_None validate_str "html"), H2.
  rewrite <- (optional_Some_None validate_str "rawHtml"), H3.
  rewrite <- (optional_Some_None (validate_list validate_str) "links"), H4.
  rewrite <- (optional_Some_None validate_dict "llm_extraction"), H6.
  rewrite <- (optional_Some_None validate_str "warning"), H7.
  repeat split; congruence.
Qed.

Lemma scrape_result_optional_fields_witness :
  ∃ r : @ScrapeResult.t strict_core,
    @ScrapeResult.model_validate strict_core
      (VDict {[ "markdown" := VStr "# Hi";
                "html" := VNone;
                "metadata" := VDict
                  {[ "sourceURL" := VStr "https://example.com";
                     "statusCode" := VInt 200 ]} ]}) = Ok r ∧
    ScrapeResult.html r = None ∧
    ScrapeResult.links r = None.
Proof.
  destruct (@ScrapeResult.model_validate strict_core
              (VDict {[ "markdown" := VStr "# Hi";
                        "html" := VNone;
                        "metadata" := VDict
                          {[ "sourceURL" := VStr "https://example.com";
                             "statusCode" := VInt 200 ]} ]}))
    as [r|e] eqn:Hr; [|vm_compute in Hr; discriminate Hr].
  exists r. split; [reflexivity|].
  destruct (@scrape_result_optional_fields strict_core _ _ Hr)
    as (_ & Hhtml & _ & Hlinks & _).
  split.
  - apply Hhtml. right. vm_compute. reflexivity.
  - apply Hlinks. left. vm_compute. reflexivity.
Defined.

(** ** Successful calls *)

Lemma validate_list_of_strs `{PydanticCore} (l : list string) :
  validate_list validate_str (of_strs l) = Some l.
Proof. cbn. apply mapM_fmap_Some, validate_str_exact. Qed.

(** X12. When the server answers [crawl] with a 2xx response whose body is
    an object with a boolean [success], a string [id] and a [url] that
    validates, the call returns a [CrawlJob] with exactly that flag, that
    id (unchanged) and the validated URL; in both clients. *)
Theorem crawl_returns_the_job `{PydanticCore}
    (transport : Request → result Response) (resp : Response) (d : dict)
    (flag : bool) (job_id : string) (v : pyvalue) (job_url : HttpUrl) :
  (∀ req, transport req = Ok resp) →
  200 ≤ status_code resp ≤ 299 →
  json resp = Ok (VDict d) →
  d !! "success" = Some (VBool flag) →
  d !! "id" = Some (VStr job_id) →
  d !! "url" = Some v →
  validate_http_url v = Some job_url →
  (∀ self u xp ip md ig l ab ae wh sf sh sit set sw,
      FirecrawlClient.crawl transport self
        u xp ip md ig l ab ae wh sf sh sit set sw
      = Ok {| CrawlJob.success := flag; CrawlJob.id := job_id;
              CrawlJob.url := job_url |}) ∧
  (∀ self u xp ip md ig l ab ae wh sf sh sit set sw,
      AsyncFirecrawlClient.crawl transport self
        u xp ip md ig l ab ae wh sf sh sit set sw
      = Ok {| CrawlJob.success := flag; CrawlJob.id := job_id;
              CrawlJob.url := job_url |}).
Proof.
  intros Hsend Hstatus Hjson Hsuccess Hid Hurl Hvalid.
  split; intros;
    unfold FirecrawlClient.crawl, AsyncFirecrawlClient.crawl;
    rewrite Hsend; cbn;
    rewrite (raise_for_status_2xx resp Hstatus); cbn;
    rewrite Hjson; cbn;
    unfold CrawlJob.model_validate, model_validate_with, CrawlJob.validate,
      CrawlJob.validate_fields, required;
    rewrite Hsuccess, Hid, Hurl; cbn;
    rewrite validate_bool_exact; cbn;
    rewrite validate_str_exact; cbn;
    rewrite Hvalid; reflexivity.
Qed.

Lemma crawl_returns_the_job_witness :
  @FirecrawlClient.crawl strict_core
    (λ _, Ok (ok_response (VDict
       {[ "success" := VBool true; "id" := VStr "job-1";
          "url" := VStr "https://api.firecrawl.dev/v1/crawl/job-1" ]})))
    (FirecrawlClient.Build_t "https://api.firecrawl.dev/v1")
    "https://example.com" None None 2 true 10 false false None None None
    None None 123
  = Ok (@CrawlJob.Build_t strict_core true "job-1"
          "https://api.firecrawl.dev/v1/crawl/job-1").
Proof.
  pose proof (@crawl_returns_the_job strict_core
    (λ _, Ok (ok_response (VDict
       {[ "success" := VBool true; "id" := VStr "job-1";
          "url" := VStr "https://api.firecrawl.dev/v1/crawl/job-1" ]})))
    (ok_response (VDict
       {[ "success" := VBool true; "id" := VStr "job-1";
          "url" := VStr "https://api.firecrawl.dev/v1/crawl/job-1" ]}))
    {[ "success" := VBool true; "id" := VStr "job-1";
       "url" := VStr "https://api.firecrawl.dev/v1/crawl/job-1" ]}
    true "job-1" (VStr "https://api.firecrawl.dev/v1/crawl/job-1")
    ("https://api.firecrawl.dev/v1/crawl/job-1" : @HttpUrl strict_core))
    as Hjob.
  assert (Hstatus : 200 ≤ status_code (ok_response VNone) ≤ 299)
    by (simpl; lia).
  apply (proj1 (Hjob (λ _, eq_refl) Hstatus eq_refl
                  ltac:(vm_compute; reflexivity) ltac:(vm_compute; reflexivity)
                  ltac:(vm_compute; reflexivity) eq_refl)).
Defined.

(** X13. When the server answers [map] with a 2xx response whose body is
    an object with a boolean [success] and a list of strings [links], the
    call returns a [MapResult] with that flag and the same list of links:
    same order, same length, duplicates kept; in both clients. *)
Theorem map_returns_the_links `{PydanticCore}
    (transport : Request → result Response) (resp : Response) (d : dict)
    (flag : bool) (found : list string) :
  (∀ req, transport req = Ok resp) →
  200 ≤ status_code resp ≤ 299 →
  json resp = Ok (VDict d) →
  d !! "success" = Some (VBool flag) →
  d !! "links" = Some (of_strs found) →
  (∀ self u q ig isd l,
      FirecrawlClient.map transport self u q ig isd l
      = Ok {| MapResult.success := flag; MapResult.links := found |}) ∧
  (∀ self u q ig isd l,
      AsyncFirecrawlClient.map transport self u q ig isd l
      = Ok {| MapResult.success := flag; MapResult.links := found |}).
Proof.
  intros Hsend Hstatus Hjson Hsuccess Hlinks.
  split; intros;
    unfold FirecrawlClient.map, AsyncFirecrawlClient.map;
    rewrite Hsend; cbn;
    rewrite (raise_for_status_2xx resp Hstatus); cbn;
    rewrite Hjson; cbn;
    unfold MapResult.model_validate, model_validate_with, MapResult.validate,
      MapResult.validate_fields, required;
    rewrite Hsuccess, Hlinks; cbn -[validate_list of_strs];
    rewrite validate_bool_exact; cbn -[validate_list of_strs];
    rewrite validate_list_of_strs; reflexivity.
Qed.

Lemma map_returns_the_links_witness :
  @FirecrawlClient.map strict_core
    (λ _, Ok (ok_response (VDict
       {[ "success" := VBool true;
          "links" := VList [VStr "https://example.com/b";
                            VStr "https://example.com/a";
                            VStr "https://example.com/b"] ]})))
    (FirecrawlClient.Build_t "https://api.firecrawl.dev/v1")
    "https://example.com" None true false 5000
  = Ok {| MapResult.success := true;
          MapResult.links := ["https://example.com/b";
                              "https://example.com/a";
                              "https://example.com/b"] |}.
Proof.
  pose proof (@map_returns_the_links strict_core
    (λ _, Ok (ok_response (VDict
       {[ "success" := VBool true;
          "links" := VList [VStr "https://example.com/b";
                            VStr "https://example.com/a";
                            VStr "https://example.com/b"] ]})))
    (ok_response (VDict
       {[ "success" := VBool true;
          "links" := VList [VStr "https://example.com/b";
                            VStr "https://example.com/a";
                            VStr "https://example.com/b"] ]}))
    {[ "success" := VBool true;
       "links" := VList [VStr "https://example.com/b";
                         VStr "https://example.com/a";
                         VStr "https://example.com/b"] ]}
    true ["https://example.com/b"; "https://example.com/a";
          "https://example.com/b"]) as Hlinks.
  assert (Hstatus : 200 ≤ status_code (ok_response VNone) ≤ 299)
    by (simpl; lia).
  apply (proj1 (Hlinks (λ _, eq_refl) Hstatus eq_refl
                  ltac:(vm_compute; reflexivity)
                  ltac:(vm_compute; reflexivity))).
Defined.

(** X14. A [CrawlStatus] validates page by page: the validated [data] has
    one [ScrapeResult] per element of the body's [data] list, in the same
    order, each the validation of the element at its position; and a
    single element that does not validate makes the whole body fail, so no
    partial list is returned. *)
Theorem crawl_status_data_pagewise `{PydanticCore} (d : dict) :
  (∀ r : CrawlStatus.t,
      CrawlStatus.model_validate (VDict d) = Ok r →
      ∃ pages : list pyvalue,
        d !! "data" = Some (VList pages) ∧
        length (CrawlStatus.data r) = length pages ∧
        Forall2 (λ page x, ScrapeResult.validate page = Some x)
          pages (CrawlStatus.data r)) ∧
  (∀ pages : list pyvalue,
      d !! "data" = Some (VList pages) →
      Exists (λ page, ScrapeResult.validate page = None) pages →
      CrawlStatus.model_validate (VDict d) = Raise ValidationError).
Proof.
  unfold CrawlStatus.model_validate, model_validate_with,
    CrawlStatus.validate, CrawlStatus.validate_fields.
  split.
  - intros r Hr.
    destruct (required CrawlState.validate "status" d);
      [cbn in Hr|discriminate].
    destruct (required validate_int "total" d); [cbn in Hr|discriminate].
    destruct (required validate_int "completed" d); [cbn in Hr|discriminate].
    destruct (required validate_datetime "expiresAt" d);
      [cbn in Hr|discriminate].
    destruct (optional validate_str "next" d); [cbn in Hr|discriminate].
    unfold required in Hr.
    destruct (d !! "data") as [[| | | |pages|]|]; try discriminate.
    cbn in Hr.
    destruct (mapM ScrapeResult.validate pages) as [xs|] eqn:Hpages;
      [cbn in Hr|discriminate].
    injection Hr as <-. cbn.
    exists pages. split; [reflexivity|]. split.
    + symmetry. now apply (length_mapM ScrapeResult.validate).
    + now apply mapM_Some_1.
  - intros pages Hdata Hbad.
    assert (Hfail : required (validate_list ScrapeResult.validate) "data" d
                    = None).
    { unfold required. rewrite Hdata. cbn.
      exact (mapM_None_2 ScrapeResult.validate pages Hbad). }
    rewrite Hfail.
    repeat match goal with
      | |- context [mbind _ ?o] => destruct o; cbn
      end; reflexivity.
Qed.

(** X15. [CrawlStatus] has no constraint between [completed] and [total]:
    if a body validates, then so does the body with [completed] replaced
    by any integer whatever, larger than [total] or negative included, and
    the result has that [completed] and the same [total]. *)
Theorem crawl_status_completed_unconstrained `{PydanticCore}
    (d : dict) (r : CrawlStatus.t) (n : Z) :
  CrawlStatus.model_validate (VDict d) = Ok r →
  ∃ r' : CrawlStatus.t,
    CrawlStatus.model_validate (VDict (<["completed" := VInt n]> d)) = Ok r' ∧
    CrawlStatus.completed r' = n ∧
    CrawlStatus.total r' = CrawlStatus.total r ∧
    CrawlStatus.status r' = CrawlStatus.status r ∧
    CrawlStatus.data r' = CrawlStatus.data r.
Proof.
  unfold CrawlStatus.model_validate, model_validate_with,
    CrawlStatus.validate, CrawlStatus.validate_fields.
  intros Hr.
  rewrite !optional_insert_ne, !(required_insert_ne _ "status"),
    !(required_insert_ne _ "total"), !(required_insert_ne _ "expiresAt"),
    !(required_insert_ne _ "data") by discriminate.
  destruct (required CrawlState.validate "status" d);
    [cbn in Hr |- *|discriminate].
  destruct (required validate_int "total" d); [cbn in Hr |- *|discriminate].
  assert (Hcompleted :
    required validate_int "completed" (<["completed" := VInt n]> d) = Some n).
  { unfold required. rewrite lookup_insert_eq. cbn.
    apply validate_int_exact. }
  rewrite Hcompleted. cbn.
  destruct (required validate_int "completed" d); [cbn in Hr|discriminate].
  destruct (required validate_datetime "expiresAt" d);
    [cbn in Hr |- *|discriminate].
  destruct (optional validate_str "next" d); [cbn in Hr |- *|discriminate].
  destruct (required (validate_list ScrapeResult.validate) "data" d);
    [cbn in Hr |- *|discriminate].
  injection Hr as <-. eexists. split; [reflexivity|]. now cbn.
Qed.

Lemma crawl_status_completed_unconstrained_witness :
  ∃ r : @CrawlStatus.t strict_core,
    @CrawlStatus.model_validate strict_core
      (VDict (<["completed" := VInt 7]>
                {[ "status" := VStr "scraping"; "total" := VInt 3;
                   "completed" := VInt 1;
                   "expiresAt" := VStr "2025-01-01T00:00:00Z";
                   "data" := VList [] ]})) = Ok r ∧
    CrawlStatus.completed r = 7 ∧
    CrawlStatus.total r = 3.
Proof.
  destruct (@CrawlStatus.model_validate strict_core
              (VDict {[ "status" := VStr "scraping"; "total" := VInt 3;
                        "completed" := VInt 1;
                        "expiresAt" := VStr "2025-01-01T00:00:00Z";
                        "data" := VList [] ]}))
    as [r0|e] eqn:Hr0; [|vm_compute in Hr0; discriminate Hr0].
  destruct (@crawl_status_completed_unconstrained strict_core _ r0 7 Hr0)
    as (r & Hr & Hcompleted & Htotal & _).
  exists r. split; [exact Hr|]. split; [exact Hcompleted|].
  rewrite Htotal. vm_compute in Hr0. now injection Hr0 as <-.
Defined.

(** ** Payloads, key by key *)

Ltac split_not_elem Hk :=
  repeat (apply not_elem_of_cons in Hk as [? Hk]).

Ltac absent_key :=
  cbv zeta;
  repeat first
    [ rewrite lookup_set_optional_ne by congruence
    | rewrite lookup_set_optional_in_ne by congruence
    | rewrite lookup_insert_ne by congruence ];
  apply lookup_singleton_ne; congruence.

Lemma py_or_nonempty {A} (x : option (list A)) (default : list A) :
  default ≠ [] → py_or x default ≠ [].
Proof. intros Hd. now destruct x as [[|a l]|]. Qed.

(** X16. The payload of [scrape] always has [url], [formats], [waitFor]
    and [timeout], with the values of the arguments ([formats] defaulted),
    whatever the optional arguments are; and it has no key other than
    these four and [includeTags], [excludeTags], [headers], [extract] (in
    particular none of the snake-case parameter names); in both clients. *)
Theorem scrape_payload_keys
    (u : string) (f it et : option (list string)) (h : option dict) (w t : Z)
    (es : option dict) (esp ep : option string) :
  FirecrawlClient.scrape_payload u f it et h w t es esp ep !! "url"
    = Some (VStr u) ∧
  FirecrawlClient.scrape_payload u f it et h w t es esp ep !! "formats"
    = Some (of_strs (py_or f ["markdown"])) ∧
  FirecrawlClient.scrape_payload u f it et h w t es esp ep !! "waitFor"
    = Some (VInt w) ∧
  FirecrawlClient.scrape_payload u f it et h w t es esp ep !! "timeout"
    = Some (VInt t) ∧
  AsyncFirecrawlClient.scrape_payload u f it et h w t es esp ep !! "url"
    = Some (VStr u) ∧
  AsyncFirecrawlClient.scrape_payload u f it et h w t es esp ep !! "formats"
    = Some (of_strs (py_or f ["markdown"])) ∧
  AsyncFirecrawlClient.scrape_payload u f it et h w t es esp ep !! "waitFor"
    = Some (VInt w) ∧
  AsyncFirecrawlClient.scrape_payload u f it et h w t es esp ep !! "timeout"
    = Some (VInt t) ∧
  (∀ k : string,
      k ∉ ["url"; "formats"; "waitFor"; "timeout";
           "includeTags"; "excludeTags"; "headers"; "extract"] →
      FirecrawlClient.scrape_payload u f it et h w t es esp ep !! k = None ∧
      AsyncFirecrawlClient.scrape_payload u f it et h w t es esp ep !! k
        = None).
Proof.
  pose proof (scrape_payload_required u f it et h w t es esp ep)
    as (Hurl & Hformats & Hwait & Htimeout).
  change AsyncFirecrawlClient.scrape_payload
    with FirecrawlClient.scrape_payload.
  repeat split; try assumption;
    split_not_elem H; unfold FirecrawlClient.scrape_payload;
    destruct (truthy es || truthy esp || truthy ep); absent_key.
Qed.

Lemma crawl_scrape_options_keys
    (u : string) (xp ip : option (list string)) (md : Z) (ig : bool) (l : Z)
    (ab ae : bool) (wh : option string) (sf : option (list string))
    (sh : option dict) (sit set : option (list string)) (sw : Z) :
  ∃ so : dict,
    FirecrawlClient.crawl_payload u xp ip md ig l ab ae wh sf sh sit set sw
      !! "scrapeOptions" = Some (VDict so) ∧
    ∀ k : string,
      k ∉ ["formats"; "waitFor"; "headers"; "includeTags"; "excludeTags"] →
      so !! k = None.
Proof.
  eexists. split.
  - unfold FirecrawlClient.crawl_payload. cbv zeta.
    do 3 apply lookup_set_optional_in.
    repeat rewrite lookup_set_optional_ne by discriminate.
    repeat rewrite lookup_insert_ne by discriminate.
    apply lookup_singleton_eq.
  - intros k Hk. split_not_elem Hk. absent_key.
Qed.

(** X17. The payload of [crawl] always has [url], [maxDepth],
    [ignoreSitemap], [limit], [allowBackwardLinks] and
    [allowExternalLinks], with the values of the arguments, whatever the
    optional arguments are; it has no key other than these six,
    [scrapeOptions], [excludePaths], [includePaths] and [webhook]; and
    [scrapeOptions] has no key other than [formats], [waitFor], [headers],
    [includeTags] and [excludeTags]; in both clients. *)
Theorem crawl_payload_keys
    (u : string) (xp ip : option (list string)) (md : Z) (ig : bool) (l : Z)
    (ab ae : bool) (wh : option string) (sf : option (list string))
    (sh : option dict) (sit set : option (list string)) (sw : Z) :
  FirecrawlClient.crawl_payload u xp ip md ig l ab ae wh sf sh sit set sw
    !! "url" = Some (VStr u) ∧
  FirecrawlClient.crawl_payload u xp ip md ig l ab ae wh sf sh sit set sw
    !! "maxDepth" = Some (VInt md) ∧
  FirecrawlClient.crawl_payload u xp ip md ig l ab ae wh sf sh sit set sw
    !! "ignoreSitemap" = Some (VBool ig) ∧
  FirecrawlClient.crawl_payload u xp ip md ig l ab ae wh sf sh sit set sw
    !! "limit" = Some (VInt l) ∧
  FirecrawlClient.crawl_payload u xp ip md ig l ab ae wh sf sh sit set sw
    !! "allowBackwardLinks" = Some (VBool ab) ∧
  FirecrawlClient.crawl_payload u xp ip md ig l ab ae wh sf sh sit set sw
    !! "allowExternalLinks" = Some (VBool ae) ∧
  AsyncFirecrawlClient.crawl_payload u xp ip md ig l ab ae wh sf sh sit set sw
    !! "url" = Some (VStr u) ∧
  AsyncFirecrawlClient.crawl_payload u xp ip md ig l ab ae wh sf sh sit set sw
    !! "maxDepth" = Some (VInt md) ∧
  AsyncFirecrawlClient.crawl_payload u xp ip md ig l ab ae wh sf sh sit set sw
    !! "ignoreSitemap" = Some (VBool ig) ∧
  AsyncFirecrawlClient.crawl_payload u xp ip md ig l ab ae wh sf sh sit set sw
    !! "limit" = Some (VInt l) ∧
  AsyncFirecrawlClient.crawl_payload u xp ip md ig l ab ae wh sf sh sit set sw
    !! "allowBackwardLinks" = Some (VBool ab) ∧
  AsyncFirecrawlClient.crawl_payload u xp ip md ig l ab ae wh sf sh sit set sw
    !! "allowExternalLinks" = Some (VBool ae) ∧
  (∀ k : string,
      k ∉ ["url"; "maxDepth"; "ignoreSitemap"; "limit";
           "allowBackwardLinks"; "allowExternalLinks"; "scrapeOptions";
           "excludePaths"; "includePaths"; "webhook"] →
      FirecrawlClient.crawl_payload u xp ip md ig l ab ae wh sf sh sit set sw
        !! k = None ∧
      AsyncFirecrawlClient.crawl_payload u xp ip md ig l ab ae wh sf sh sit set sw
        !! k = None) ∧
  (∃ so : dict,
      FirecrawlClient.crawl_payload u xp ip md ig l ab ae wh sf sh sit set sw
        !! "scrapeOptions" = Some (VDict so) ∧
      AsyncFirecrawlClient.crawl_payload u xp ip md ig l ab ae wh sf sh sit set sw
        !! "scrapeOptions" = Some (VDict so) ∧
      ∀ k : string,
        k ∉ ["formats"; "waitFor"; "headers"; "includeTags"; "excludeTags"] →
        so !! k = None).
Proof.
  pose proof (crawl_payload_required u xp ip md ig l ab ae wh sf sh sit set sw)
    as (H1 & H2 & H3 & H4 & H5 & H6).
  destruct (crawl_scrape_options_keys u xp ip md ig l ab ae wh sf sh sit set sw)
    as (so & Hso & Hkeys).
  change AsyncFirecrawlClient.crawl_payload
    with FirecrawlClient.crawl_payload.
  repeat split; try assumption.
  - split_not_elem H. unfold FirecrawlClient.crawl_payload. absent_key.
  - split_not_elem H. unfold FirecrawlClient.crawl_payload. absent_key.
  - exists so. repeat split; assumption.
Qed.

(** X18. The payload of [map] always has [url], [ignoreSitemap],
    [includeSubdomains] and [limit], with the values of the arguments,
    whether or not [search] is given; and it has no key other than these
    four and [search]; in both clients. *)
Theorem map_payload_keys
    (u : string) (q : option string) (ig isd : bool) (l : Z) :
  FirecrawlClient.map_payload u q ig isd l !! "url" = Some (VStr u) ∧
  FirecrawlClient.map_payload u q ig isd l !! "ignoreSitemap"
    = Some (VBool ig) ∧
  FirecrawlClient.map_payload u q ig isd l !! "includeSubdomains"
    = Some (VBool isd) ∧
  FirecrawlClient.map_payload u q ig isd l !! "limit" = Some (VInt l) ∧
  AsyncFirecrawlClient.map_payload u q ig isd l !! "url" = Some (VStr u) ∧
  AsyncFirecrawlClient.map_payload u q ig isd l !! "ignoreSitemap"
    = Some (VBool ig) ∧
  AsyncFirecrawlClient.map_payload u q ig isd l !! "includeSubdomains"
    = Some (VBool isd) ∧
  AsyncFirecrawlClient.map_payload u q ig isd l !! "limit" = Some (VInt l) ∧
  (∀ k : string,
      k ∉ ["url"; "ignoreSitemap"; "includeSubdomains"; "limit"; "search"] →
      FirecrawlClient.map_payload u q ig isd l !! k = None ∧
      AsyncFirecrawlClient.map_payload u q ig isd l !! k = None).
Proof.
  pose proof (map_payload_required u q ig isd l) as (H1 & H2 & H3 & H4).
  change AsyncFirecrawlClient.map_payload with FirecrawlClient.map_payload.
  repeat split; try assumption;
    split_not_elem H; unfold FirecrawlClient.map_payload; absent_key.
Qed.

(** X19. The [formats] a client sends is never the empty list: the payload
    of [scrape], and [scrapeOptions] in the payload of [crawl], hold under
    [formats] a non-empty list of strings, namely the argument when it is a
    non-empty list and ["markdown"] otherwise; in both clients. *)
Theorem formats_never_empty
    (u : string) (f it et : option (list string)) (h : option dict) (w t : Z)
    (es : option dict) (esp ep : option string)
    (cu : string) (xp ip : option (list string)) (md : Z) (ig : bool) (l : Z)
    (ab ae : bool) (wh : option string) (sf : option (list string))
    (sh : option dict) (sit set : option (list string)) (sw : Z) :
  (∃ fs : list string,
      fs ≠ [] ∧
      (∀ x, f = Some x → x ≠ [] → fs = x) ∧
      (f = None ∨ f = Some [] → fs = ["markdown"]) ∧
      FirecrawlClient.scrape_payload u f it et h w t es esp ep !! "formats"
        = Some (of_strs fs) ∧
      AsyncFirecrawlClient.scrape_payload u f it et h w t es esp ep !! "formats"
        = Some (of_strs fs)) ∧
  (∃ (fs : list string) (so : dict),
      fs ≠ [] ∧
      (∀ x, sf = Some x → x ≠ [] → fs = x) ∧
      (sf = None ∨ sf = Some [] → fs = ["markdown"]) ∧
      so !! "formats" = Some (of_strs fs) ∧
      FirecrawlClient.crawl_payload cu xp ip md ig l ab ae wh sf sh sit set sw
        !! "scrapeOptions" = Some (VDict so) ∧
      AsyncFirecrawlClient.crawl_payload cu xp ip md ig l ab ae wh sf sh sit set sw
        !! "scrapeOptions" = Some (VDict so)).
Proof.
  assert (Hdefault : ["markdown"] ≠ @nil string) by discriminate.
  assert (Hgiven : ∀ (o : option (list string)) x,
            o = Some x → x ≠ [] → py_or o ["markdown"] = x).
  { intros o x -> Hx. now destruct x. }
  assert (Hfalsy : ∀ o : option (list string),
            o = None ∨ o = Some [] → py_or o ["markdown"] = ["markdown"]).
  { now intros o [-> | ->]. }
  split.
  - exists (py_or f ["markdown"]).
    pose proof (scrape_payload_required u f it et h w t es esp ep)
      as (_ & Hformats & _).
    repeat split;
      [now apply py_or_nonempty | now apply Hgiven | now apply Hfalsy | ..];
      exact Hformats.
  - destruct (crawl_scrape_options cu xp ip md ig l ab ae wh sf sh sit set sw)
      as (so & Hso & Hformats & _).
    exists (py_or sf ["markdown"]), so.
    repeat split;
      [now apply py_or_nonempty | now apply Hgiven | now apply Hfalsy | ..];
      assumption.
Qed.

(** ** Releasing the transport *)

(** X20. Leaving [async with] closes the transport on every path: whether
    the body returns or raises, the transport ends in the state [aclose]
    leaves it in, starting from the state the body left.  The outcome of
    the block is the body's own outcome (its result, or the exception it
    raised, which is not suppressed) whenever [aclose] succeeds, and the
    exception of [aclose] otherwise. *)
Theorem async_with_always_closes {Transport A : Type}
    (aclose : Transport → result () * Transport)
    (self : AsyncFirecrawlClient.t)
    (body : AsyncFirecrawlClient.t → Transport → result A * Transport)
    (transport : Transport) :
  (AsyncFirecrawlClient.async_with aclose self body transport).2
    = (aclose (body self transport).2).2 ∧
  (AsyncFirecrawlClient.async_with aclose self body transport).1
    = match (aclose (body self transport).2).1 with
      | Ok _ => (body self transport).1
      | Raise e => Raise e
      end.
Proof.
  unfold AsyncFirecrawlClient.async_with, AsyncFirecrawlClient.__aexit__,
    AsyncFirecrawlClient.close, AsyncFirecrawlClient.__aenter__.
  destruct (body self transport) as [outcome after]. cbn.
  destruct (aclose after) as [exited closed]. cbn.
  split; reflexivity.
Qed.
